(** * kw.py: a keyword turned into a case-insensitive character-class pattern

    The script reads one keyword from the command line and prints, for every
    character [ch] of it, the group [[] ++ ch.lower() ++ ch.upper() ++ []].
    This development embeds the script together with the part of the Python 3
    runtime it calls ([sys.argv], list [append], [str.join], [str.lower],
    [str.upper], [print]) and proves properties of the embedding. *)

From Stdlib Require Import ZArith List Bool Lia Ascii String.
Import ListNotations.
Local Open Scope Z_scope.

(** ** Python strings

    A Python 3 [str] is a sequence of Unicode code points; iterating over it
    yields strings of one code point. *)

Definition char := Z.
Definition str := list char.

Definition ord (a : ascii) : char := Z.of_N (N_of_ascii a).

Fixpoint str_of (s : string) : str :=
  match s with
  | EmptyString => []
  | String a s' => ord a :: str_of s'
  end.

Fixpoint str_eqb (a b : str) : bool :=
  match a, b with
  | [], [] => true
  | x :: a', y :: b' => (x =? y) && str_eqb a' b'
  | _, _ => false
  end.

(** ** The Unicode character database of the interpreter (Unicode 14.0.0)

    CPython keeps, per code point, the offset to its lower and upper case
    form and, for the mappings of SpecialCasing.txt, an index into an
    extended table.  The same data is given here as runs: [Run first count
    stride delta] stands for the [count] code points [first + stride * k],
    each mapped to itself plus [delta].  Code points with a mapping of
    another length than one are listed one by one. *)

Record case_run := Run {
  run_first : char;
  run_count : nat;
  run_stride : Z;
  run_delta : Z
}.

Definition run_entries (r : case_run) : list (char * str) :=
  map (fun k => let c := run_first r + run_stride r * Z.of_nat k in
                (c, [c + run_delta r]))
      (seq 0 (run_count r)).

Definition lower_runs : list case_run :=
  [
   Run 0x41 26 1 32; Run 0xC0 23 1 32; Run 0xD8 7 1 32; Run 0x100 24 2 1;
   Run 0x132 3 2 1; Run 0x139 8 2 1; Run 0x14A 23 2 1; Run 0x178 1 1 (-121);
   Run 0x179 3 2 1; Run 0x181 1 1 210; Run 0x182 2 2 1; Run 0x186 1 1 206;
   Run 0x187 1 1 1; Run 0x189 2 1 205; Run 0x18B 1 1 1; Run 0x18E 1 1 79;
   Run 0x18F 1 1 202; Run 0x190 1 1 203; Run 0x191 1 1 1; Run 0x193 1 1 205;
   Run 0x194 1 1 207; Run 0x196 1 1 211; Run 0x197 1 1 209; Run 0x198 1 1 1;
   Run 0x19C 1 1 211; Run 0x19D 1 1 213; Run 0x19F 1 1 214; Run 0x1A0 3 2 1;
   Run 0x1A6 1 1 218; Run 0x1A7 1 1 1; Run 0x1A9 1 1 218; Run 0x1AC 1 1 1;
   Run 0x1AE 1 1 218; Run 0x1AF 1 1 1; Run 0x1B1 2 1 217; Run 0x1B3 2 2 1;
   Run 0x1B7 1 1 219; Run 0x1B8 1 1 1; Run 0x1BC 1 1 1; Run 0x1C4 1 1 2;
   Run 0x1C5 1 1 1; Run 0x1C7 1 1 2; Run 0x1C8 1 1 1; Run 0x1CA 1 1 2;
   Run 0x1CB 9 2 1; Run 0x1DE 9 2 1; Run 0x1F1 1 1 2; Run 0x1F2 2 2 1;
   Run 0x1F6 1 1 (-97); Run 0x1F7 1 1 (-56); Run 0x1F8 20 2 1; Run 0x220 1 1 (-130);
   Run 0x222 9 2 1; Run 0x23A 1 1 10795; Run 0x23B 1 1 1; Run 0x23D 1 1 (-163);
   Run 0x23E 1 1 10792; Run 0x241 1 1 1; Run 0x243 1 1 (-195); Run 0x244 1 1 69;
   Run 0x245 1 1 71; Run 0x246 5 2 1; Run 0x370 2 2 1; Run 0x376 1 1 1;
   Run 0x37F 1 1 116; Run 0x386 1 1 38; Run 0x388 3 1 37; Run 0x38C 1 1 64;
   Run 0x38E 2 1 63; Run 0x391 17 1 32; Run 0x3A3 9 1 32; Run 0x3CF 1 1 8;
   Run 0x3D8 12 2 1; Run 0x3F4 1 1 (-60); Run 0x3F7 1 1 1; Run 0x3F9 1 1 (-7);
   Run 0x3FA 1 1 1; Run 0x3FD 3 1 (-130); Run 0x400 16 1 80; Run 0x410 32 1 32;
   Run 0x460 17 2 1; Run 0x48A 27 2 1; Run 0x4C0 1 1 15; Run 0x4C1 7 2 1;
   Run 0x4D0 48 2 1; Run 0x531 38 1 48; Run 0x10A0 38 1 7264; Run 0x10C7 1 1 7264;
   Run 0x10CD 1 1 7264; Run 0x13A0 80 1 38864; Run 0x13F0 6 1 8; Run 0x1C90 43 1 (-3008);
   Run 0x1CBD 3 1 (-3008); Run 0x1E00 75 2 1; Run 0x1E9E 1 1 (-7615); Run 0x1EA0 48 2 1;
   Run 0x1F08 8 1 (-8); Run 0x1F18 6 1 (-8); Run 0x1F28 8 1 (-8); Run 0x1F38 8 1 (-8);
   Run 0x1F48 6 1 (-8); Run 0x1F59 4 2 (-8); Run 0x1F68 8 1 (-8); Run 0x1F88 8 1 (-8);
   Run 0x1F98 8 1 (-8); Run 0x1FA8 8 1 (-8); Run 0x1FB8 2 1 (-8); Run 0x1FBA 2 1 (-74);
   Run 0x1FBC 1 1 (-9); Run 0x1FC8 4 1 (-86); Run 0x1FCC 1 1 (-9); Run 0x1FD8 2 1 (-8);
   Run 0x1FDA 2 1 (-100); Run 0x1FE8 2 1 (-8); Run 0x1FEA 2 1 (-112); Run 0x1FEC 1 1 (-7);
   Run 0x1FF8 2 1 (-128); Run 0x1FFA 2 1 (-126); Run 0x1FFC 1 1 (-9); Run 0x2126 1 1 (-7517);
   Run 0x212A 1 1 (-8383); Run 0x212B 1 1 (-8262); Run 0x2132 1 1 28; Run 0x2160 16 1 16;
   Run 0x2183 1 1 1; Run 0x24B6 26 1 26; Run 0x2C00 48 1 48; Run 0x2C60 1 1 1;
   Run 0x2C62 1 1 (-10743); Run 0x2C63 1 1 (-3814); Run 0x2C64 1 1 (-10727); Run 0x2C67 3 2 1;
   Run 0x2C6D 1 1 (-10780); Run 0x2C6E 1 1 (-10749); Run 0x2C6F 1 1 (-10783); Run 0x2C70 1 1 (-10782);
   Run 0x2C72 1 1 1; Run 0x2C75 1 1 1; Run 0x2C7E 2 1 (-10815); Run 0x2C80 50 2 1;
   Run 0x2CEB 2 2 1; Run 0x2CF2 1 1 1; Run 0xA640 23 2 1; Run 0xA680 14 2 1;
   Run 0xA722 7 2 1; Run 0xA732 31 2 1; Run 0xA779 2 2 1; Run 0xA77D 1 1 (-35332);
   Run 0xA77E 5 2 1; Run 0xA78B 1 1 1; Run 0xA78D 1 1 (-42280); Run 0xA790 2 2 1;
   Run 0xA796 10 2 1; Run 0xA7AA 1 1 (-42308); Run 0xA7AB 1 1 (-42319); Run 0xA7AC 1 1 (-42315);
   Run 0xA7AD 1 1 (-42305); Run 0xA7AE 1 1 (-42308); Run 0xA7B0 1 1 (-42258); Run 0xA7B1 1 1 (-42282);
   Run 0xA7B2 1 1 (-42261); Run 0xA7B3 1 1 928; Run 0xA7B4 8 2 1; Run 0xA7C4 1 1 (-48);
   Run 0xA7C5 1 1 (-42307); Run 0xA7C6 1 1 (-35384); Run 0xA7C7 2 2 1; Run 0xA7D0 1 1 1;
   Run 0xA7D6 2 2 1; Run 0xA7F5 1 1 1; Run 0xFF21 26 1 32; Run 0x10400 40 1 40;
   Run 0x104B0 36 1 40; Run 0x10570 19 2 39; Run 0x10571 5 2 39; Run 0x1057D 7 2 39;
   Run 0x1058D 3 2 39; Run 0x10595 1 1 39; Run 0x10C80 51 1 64; Run 0x118A0 32 1 32;
   Run 0x16E40 32 1 32; Run 0x1E900 34 1 34
  ].

Definition lower_special : list (char * str) :=
  [
   (0x130, [0x69; 0x307])
  ].

Definition upper_runs : list case_run :=
  [
   Run 0x61 26 1 (-32); Run 0xB5 1 1 743; Run 0xE0 23 1 (-32); Run 0xF8 7 1 (-32);
   Run 0xFF 1 1 121; Run 0x101 24 2 (-1); Run 0x131 1 1 (-232); Run 0x133 3 2 (-1);
   Run 0x13A 8 2 (-1); Run 0x14B 23 2 (-1); Run 0x17A 3 2 (-1); Run 0x17F 1 1 (-300);
   Run 0x180 1 1 195; Run 0x183 2 2 (-1); Run 0x188 1 1 (-1); Run 0x18C 1 1 (-1);
   Run 0x192 1 1 (-1); Run 0x195 1 1 97; Run 0x199 1 1 (-1); Run 0x19A 1 1 163;
   Run 0x19E 1 1 130; Run 0x1A1 3 2 (-1); Run 0x1A8 1 1 (-1); Run 0x1AD 1 1 (-1);
   Run 0x1B0 1 1 (-1); Run 0x1B4 2 2 (-1); Run 0x1B9 1 1 (-1); Run 0x1BD 1 1 (-1);
   Run 0x1BF 1 1 56; Run 0x1C5 1 1 (-1); Run 0x1C6 1 1 (-2); Run 0x1C8 1 1 (-1);
   Run 0x1C9 1 1 (-2); Run 0x1CB 1 1 (-1); Run 0x1CC 1 1 (-2); Run 0x1CE 8 2 (-1);
   Run 0x1DD 1 1 (-79); Run 0x1DF 9 2 (-1); Run 0x1F2 1 1 (-1); Run 0x1F3 1 1 (-2);
   Run 0x1F5 1 1 (-1); Run 0x1F9 20 2 (-1); Run 0x223 9 2 (-1); Run 0x23C 1 1 (-1);
   Run 0x23F 2 1 10815; Run 0x242 1 1 (-1); Run 0x247 5 2 (-1); Run 0x250 1 1 10783;
   Run 0x251 1 1 10780; Run 0x252 1 1 10782; Run 0x253 1 1 (-210); Run 0x254 1 1 (-206);
   Run 0x256 2 1 (-205); Run 0x259 1 1 (-202); Run 0x25B 1 1 (-203); Run 0x25C 1 1 42319;
   Run 0x260 1 1 (-205); Run 0x261 1 1 42315; Run 0x263 1 1 (-207); Run 0x265 1 1 42280;
   Run 0x266 1 1 42308; Run 0x268 1 1 (-209); Run 0x269 1 1 (-211); Run 0x26A 1 1 42308;
   Run 0x26B 1 1 10743; Run 0x26C 1 1 42305; Run 0x26F 1 1 (-211); Run 0x271 1 1 10749;
   Run 0x272 1 1 (-213); Run 0x275 1 1 (-214); Run 0x27D 1 1 10727; Run 0x280 1 1 (-218);
   Run 0x282 1 1 42307; Run 0x283 1 1 (-218); Run 0x287 1 1 42282; Run 0x288 1 1 (-218);
   Run 0x289 1 1 (-69); Run 0x28A 2 1 (-217); Run 0x28C 1 1 (-71); Run 0x292 1 1 (-219);
   Run 0x29D 1 1 42261; Run 0x29E 1 1 42258; Run 0x345 1 1 84; Run 0x371 2 2 (-1);
   Run 0x377 1 1 (-1); Run 0x37B 3 1 130; Run 0x3AC 1 1 (-38); Run 0x3AD 3 1 (-37);
   Run 0x3B1 17 1 (-32); Run 0x3C2 1 1 (-31); Run 0x3C3 9 1 (-32); Run 0x3CC 1 1 (-64);
   Run 0x3CD 2 1 (-63); Run 0x3D0 1 1 (-62); Run 0x3D1 1 1 (-57); Run 0x3D5 1 1 (-47);
   Run 0x3D6 1 1 (-54); Run 0x3D7 1 1 (-8); Run 0x3D9 12 2 (-1); Run 0x3F0 1 1 (-86);
   Run 0x3F1 1 1 (-80); Run 0x3F2 1 1 7; Run 0x3F3 1 1 (-116); Run 0x3F5 1 1 (-96);
   Run 0x3F8 1 1 (-1); Run 0x3FB 1 1 (-1); Run 0x430 32 1 (-32); Run 0x450 16 1 (-80);
   Run 0x461 17 2 (-1); Run 0x48B 27 2 (-1); Run 0x4C2 7 2 (-1); Run 0x4CF 1 1 (-15);
   Run 0x4D1 48 2 (-1); Run 0x561 38 1 (-48); Run 0x10D0 43 1 3008; Run 0x10FD 3 1 3008;
   Run 0x13F8 6 1 (-8); Run 0x1C80 1 1 (-6254); Run 0x1C81 1 1 (-6253); Run 0x1C82 1 1 (-6244);
   Run 0x1C83 2 1 (-6242); Run 0x1C85 1 1 (-6243); Run 0x1C86 1 1 (-6236); Run 0x1C87 1 1 (-6181);
   Run 0x1C88 1 1 35266; Run 0x1D79 1 1 35332; Run 0x1D7D 1 1 3814; Run 0x1D8E 1 1 35384;
   Run 0x1E01 75 2 (-1); Run 0x1E9B 1 1 (-59); Run 0x1EA1 48 2 (-1); Run 0x1F00 8 1 8;
   Run 0x1F10 6 1 8; Run 0x1F20 8 1 8; Run 0x1F30 8 1 8; Run 0x1F40 6 1 8;
   Run 0x1F51 4 2 8; Run 0x1F60 8 1 8; Run 0x1F70 2 1 74; Run 0x1F72 4 1 86;
   Run 0x1F76 2 1 100; Run 0x1F78 2 1 128; Run 0x1F7A 2 1 112; Run 0x1F7C 2 1 126;
   Run 0x1FB0 2 1 8; Run 0x1FBE 1 1 (-7205); Run 0x1FD0 2 1 8; Run 0x1FE0 2 1 8;
   Run 0x1FE5 1 1 7; Run 0x214E 1 1 (-28); Run 0x2170 16 1 (-16); Run 0x2184 1 1 (-1);
   Run 0x24D0 26 1 (-26); Run 0x2C30 48 1 (-48); Run 0x2C61 1 1 (-1); Run 0x2C65 1 1 (-10795);
   Run 0x2C66 1 1 (-10792); Run 0x2C68 3 2 (-1); Run 0x2C73 1 1 (-1); Run 0x2C76 1 1 (-1);
   Run 0x2C81 50 2 (-1); Run 0x2CEC 2 2 (-1); Run 0x2CF3 1 1 (-1); Run 0x2D00 38 1 (-7264);
   Run 0x2D27 1 1 (-7264); Run 0x2D2D 1 1 (-7264); Run 0xA641 23 2 (-1); Run 0xA681 14 2 (-1);
   Run 0xA723 7 2 (-1); Run 0xA733 31 2 (-1); Run 0xA77A 2 2 (-1); Run 0xA77F 5 2 (-1);
   Run 0xA78C 1 1 (-1); Run 0xA791 2 2 (-1); Run 0xA794 1 1 48; Run 0xA797 10 2 (-1);
   Run 0xA7B5 8 2 (-1); Run 0xA7C8 2 2 (-1); Run 0xA7D1 1 1 (-1); Run 0xA7D7 2 2 (-1);
   Run 0xA7F6 1 1 (-1); Run 0xAB53 1 1 (-928); Run 0xAB70 80 1 (-38864); Run 0xFF41 26 1 (-32);
   Run 0x10428 40 1 (-40); Run 0x104D8 36 1 (-40); Run 0x10597 19 2 (-39); Run 0x10598 5 2 (-39);
   Run 0x105A4 7 2 (-39); Run 0x105B4 3 2 (-39); Run 0x105BC 1 1 (-39); Run 0x10CC0 51 1 (-64);
   Run 0x118C0 32 1 (-32); Run 0x16E60 32 1 (-32); Run 0x1E922 34 1 (-34)
  ].

Definition upper_special : list (char * str) :=
  [
   (0xDF, [0x53; 0x53]); (0x149, [0x2BC; 0x4E]); (0x1F0, [0x4A; 0x30C]);
   (0x390, [0x399; 0x308; 0x301]); (0x3B0, [0x3A5; 0x308; 0x301]); (0x587, [0x535; 0x552]);
   (0x1E96, [0x48; 0x331]); (0x1E97, [0x54; 0x308]); (0x1E98, [0x57; 0x30A]);
   (0x1E99, [0x59; 0x30A]); (0x1E9A, [0x41; 0x2BE]); (0x1F50, [0x3A5; 0x313]);
   (0x1F52, [0x3A5; 0x313; 0x300]); (0x1F54, [0x3A5; 0x313; 0x301]); (0x1F56, [0x3A5; 0x313; 0x342]);
   (0x1F80, [0x1F08; 0x399]); (0x1F81, [0x1F09; 0x399]); (0x1F82, [0x1F0A; 0x399]);
   (0x1F83, [0x1F0B; 0x399]); (0x1F84, [0x1F0C; 0x399]); (0x1F85, [0x1F0D; 0x399]);
   (0x1F86, [0x1F0E; 0x399]); (0x1F87, [0x1F0F; 0x399]); (0x1F88, [0x1F08; 0x399]);
   (0x1F89, [0x1F09; 0x399]); (0x1F8A, [0x1F0A; 0x399]); (0x1F8B, [0x1F0B; 0x399]);
   (0x1F8C, [0x1F0C; 0x399]); (0x1F8D, [0x1F0D; 0x399]); (0x1F8E, [0x1F0E; 0x399]);
   (0x1F8F, [0x1F0F; 0x399]); (0x1F90, [0x1F28; 0x399]); (0x1F91, [0x1F29; 0x399]);
   (0x1F92, [0x1F2A; 0x399]); (0x1F93, [0x1F2B; 0x399]); (0x1F94, [0x1F2C; 0x399]);
   (0x1F95, [0x1F2D; 0x399]); (0x1F96, [0x1F2E; 0x399]); (0x1F97, [0x1F2F; 0x399]);
   (0x1F98, [0x1F28; 0x399]); (0x1F99, [0x1F29; 0x399]); (0x1F9A, [0x1F2A; 0x399]);
   (0x1F9B, [0x1F2B; 0x399]); (0x1F9C, [0x1F2C; 0x399]); (0x1F9D, [0x1F2D; 0x399]);
   (0x1F9E, [0x1F2E; 0x399]); (0x1F9F, [0x1F2F; 0x399]); (0x1FA0, [0x1F68; 0x399]);
   (0x1FA1, [0x1F69; 0x399]); (0x1FA2, [0x1F6A; 0x399]); (0x1FA3, [0x1F6B; 0x399]);
   (0x1FA4, [0x1F6C; 0x399]); (0x1FA5, [0x1F6D; 0x399]); (0x1FA6, [0x1F6E; 0x399]);
   (0x1FA7, [0x1F6F; 0x399]); (0x1FA8, [0x1F68; 0x399]); (0x1FA9, [0x1F69; 0x399]);
   (0x1FAA, [0x1F6A; 0x399]); (0x1FAB, [0x1F6B; 0x399]); (0x1FAC, [0x1F6C; 0x399]);
   (0x1FAD, [0x1F6D; 0x399]); (0x1FAE, [0x1F6E; 0x399]); (0x1FAF, [0x1F6F; 0x399]);
   (0x1FB2, [0x1FBA; 0x399]); (0x1FB3, [0x391; 0x399]); (0x1FB4, [0x386; 0x399]);
   (0x1FB6, [0x391; 0x342]); (0x1FB7, [0x391; 0x342; 0x399]); (0x1FBC, [0x391; 0x399]);
   (0x1FC2, [0x1FCA; 0x399]); (0x1FC3, [0x397; 0x399]); (0x1FC4, [0x389; 0x399]);
   (0x1FC6, [0x397; 0x342]); (0x1FC7, [0x397; 0x342; 0x399]); (0x1FCC, [0x397; 0x399]);
   (0x1FD2, [0x399; 0x308; 0x300]); (0x1FD3, [0x399; 0x308; 0x301]); (0x1FD6, [0x399; 0x342]);
   (0x1FD7, [0x399; 0x308; 0x342]); (0x1FE2, [0x3A5; 0x308; 0x300]); (0x1FE3, [0x3A5; 0x308; 0x301]);
   (0x1FE4, [0x3A1; 0x313]); (0x1FE6, [0x3A5; 0x342]); (0x1FE7, [0x3A5; 0x308; 0x342]);
   (0x1FF2, [0x1FFA; 0x399]); (0x1FF3, [0x3A9; 0x399]); (0x1FF4, [0x38F; 0x399]);
   (0x1FF6, [0x3A9; 0x342]); (0x1FF7, [0x3A9; 0x342; 0x399]); (0x1FFC, [0x3A9; 0x399]);
   (0xFB00, [0x46; 0x46]); (0xFB01, [0x46; 0x49]); (0xFB02, [0x46; 0x4C]);
   (0xFB03, [0x46; 0x46; 0x49]); (0xFB04, [0x46; 0x46; 0x4C]); (0xFB05, [0x53; 0x54]);
   (0xFB06, [0x53; 0x54]); (0xFB13, [0x544; 0x546]); (0xFB14, [0x544; 0x535]);
   (0xFB15, [0x544; 0x53B]); (0xFB16, [0x54E; 0x546]); (0xFB17, [0x544; 0x53D])
  ].

Definition cased_ranges : list (char * char) :=
  [
   (0x41, 0x5A); (0x61, 0x7A); (0xAA, 0xAA); (0xB5, 0xB5); (0xBA, 0xBA);
   (0xC0, 0xD6); (0xD8, 0xF6); (0xF8, 0x1BA); (0x1BC, 0x1BF); (0x1C4, 0x293);
   (0x295, 0x2B8); (0x2C0, 0x2C1); (0x2E0, 0x2E4); (0x345, 0x345); (0x370, 0x373);
   (0x376, 0x377); (0x37A, 0x37D); (0x37F, 0x37F); (0x386, 0x386); (0x388, 0x38A);
   (0x38C, 0x38C); (0x38E, 0x3A1); (0x3A3, 0x3F5); (0x3F7, 0x481); (0x48A, 0x52F);
   (0x531, 0x556); (0x560, 0x588); (0x10A0, 0x10C5); (0x10C7, 0x10C7); (0x10CD, 0x10CD);
   (0x10D0, 0x10FA); (0x10FD, 0x10FF); (0x13A0, 0x13F5); (0x13F8, 0x13FD); (0x1C80, 0x1C88);
   (0x1C90, 0x1CBA); (0x1CBD, 0x1CBF); (0x1D00, 0x1DBF); (0x1E00, 0x1F15); (0x1F18, 0x1F1D);
   (0x1F20, 0x1F45); (0x1F48, 0x1F4D); (0x1F50, 0x1F57); (0x1F59, 0x1F59); (0x1F5B, 0x1F5B);
   (0x1F5D, 0x1F5D); (0x1F5F, 0x1F7D); (0x1F80, 0x1FB4); (0x1FB6, 0x1FBC); (0x1FBE, 0x1FBE);
   (0x1FC2, 0x1FC4); (0x1FC6, 0x1FCC); (0x1FD0, 0x1FD3); (0x1FD6, 0x1FDB); (0x1FE0, 0x1FEC);
   (0x1FF2, 0x1FF4); (0x1FF6, 0x1FFC); (0x2071, 0x2071); (0x207F, 0x207F); (0x2090, 0x209C);
   (0x2102, 0x2102); (0x2107, 0x2107); (0x210A, 0x2113); (0x2115, 0x2115); (0x2119, 0x211D);
   (0x2124, 0x2124); (0x2126, 0x2126); (0x2128, 0x2128); (0x212A, 0x212D); (0x212F, 0x2134);
   (0x2139, 0x2139); (0x213C, 0x213F); (0x2145, 0x2149); (0x214E, 0x214E); (0x2160, 0x217F);
   (0x2183, 0x2184); (0x24B6, 0x24E9); (0x2C00, 0x2CE4); (0x2CEB, 0x2CEE); (0x2CF2, 0x2CF3);
   (0x2D00, 0x2D25); (0x2D27, 0x2D27); (0x2D2D, 0x2D2D); (0xA640, 0xA66D); (0xA680, 0xA69D);
   (0xA722, 0xA787); (0xA78B, 0xA78E); (0xA790, 0xA7CA); (0xA7D0, 0xA7D1); (0xA7D3, 0xA7D3);
   (0xA7D5, 0xA7D9); (0xA7F5, 0xA7F6); (0xA7F8, 0xA7FA); (0xAB30, 0xAB5A); (0xAB5C, 0xAB68);
   (0xAB70, 0xABBF); (0xFB00, 0xFB06); (0xFB13, 0xFB17); (0xFF21, 0xFF3A); (0xFF41, 0xFF5A);
   (0x10400, 0x1044F); (0x104B0, 0x104D3); (0x104D8, 0x104FB); (0x10570, 0x1057A); (0x1057C, 0x1058A);
   (0x1058C, 0x10592); (0x10594, 0x10595); (0x10597, 0x105A1); (0x105A3, 0x105B1); (0x105B3, 0x105B9);
   (0x105BB, 0x105BC); (0x10780, 0x10780); (0x10783, 0x10785); (0x10787, 0x107B0); (0x107B2, 0x107BA);
   (0x10C80, 0x10CB2); (0x10CC0, 0x10CF2); (0x118A0, 0x118DF); (0x16E40, 0x16E7F); (0x1D400, 0x1D454);
   (0x1D456, 0x1D49C); (0x1D49E, 0x1D49F); (0x1D4A2, 0x1D4A2); (0x1D4A5, 0x1D4A6); (0x1D4A9, 0x1D4AC);
   (0x1D4AE, 0x1D4B9); (0x1D4BB, 0x1D4BB); (0x1D4BD, 0x1D4C3); (0x1D4C5, 0x1D505); (0x1D507, 0x1D50A);
   (0x1D50D, 0x1D514); (0x1D516, 0x1D51C); (0x1D51E, 0x1D539); (0x1D53B, 0x1D53E); (0x1D540, 0x1D544);
   (0x1D546, 0x1D546); (0x1D54A, 0x1D550); (0x1D552, 0x1D6A5); (0x1D6A8, 0x1D6C0); (0x1D6C2, 0x1D6DA);
   (0x1D6DC, 0x1D6FA); (0x1D6FC, 0x1D714); (0x1D716, 0x1D734); (0x1D736, 0x1D74E); (0x1D750, 0x1D76E);
   (0x1D770, 0x1D788); (0x1D78A, 0x1D7A8); (0x1D7AA, 0x1D7C2); (0x1D7C4, 0x1D7CB); (0x1DF00, 0x1DF09);
   (0x1DF0B, 0x1DF1E); (0x1E900, 0x1E943); (0x1F130, 0x1F149); (0x1F150, 0x1F169); (0x1F170, 0x1F189)
  ].

Definition case_ignorable_ranges : list (char * char) :=
  [
   (0x27, 0x27); (0x2E, 0x2E); (0x3A, 0x3A); (0x5E, 0x5E); (0x60, 0x60);
   (0xA8, 0xA8); (0xAD, 0xAD); (0xAF, 0xAF); (0xB4, 0xB4); (0xB7, 0xB8);
   (0x2B0, 0x36F); (0x374, 0x375); (0x37A, 0x37A); (0x384, 0x385); (0x387, 0x387);
   (0x483, 0x489); (0x559, 0x559); (0x55F, 0x55F); (0x591, 0x5BD); (0x5BF, 0x5BF);
   (0x5C1, 0x5C2); (0x5C4, 0x5C5); (0x5C7, 0x5C7); (0x5F4, 0x5F4); (0x600, 0x605);
   (0x610, 0x61A); (0x61C, 0x61C); (0x640, 0x640); (0x64B, 0x65F); (0x670, 0x670);
   (0x6D6, 0x6DD); (0x6DF, 0x6E8); (0x6EA, 0x6ED); (0x70F, 0x70F); (0x711, 0x711);
   (0x730, 0x74A); (0x7A6, 0x7B0); (0x7EB, 0x7F5); (0x7FA, 0x7FA); (0x7FD, 0x7FD);
   (0x816, 0x82D); (0x859, 0x85B); (0x888, 0x888); (0x890, 0x891); (0x898, 0x89F);
   (0x8C9, 0x902); (0x93A, 0x93A); (0x93C, 0x93C); (0x941, 0x948); (0x94D, 0x94D);
   (0x951, 0x957); (0x962, 0x963); (0x971, 0x971); (0x981, 0x981); (0x9BC, 0x9BC);
   (0x9C1, 0x9C4); (0x9CD, 0x9CD); (0x9E2, 0x9E3); (0x9FE, 0x9FE); (0xA01, 0xA02);
   (0xA3C, 0xA3C); (0xA41, 0xA42); (0xA47, 0xA48); (0xA4B, 0xA4D); (0xA51, 0xA51);
   (0xA70, 0xA71); (0xA75, 0xA75); (0xA81, 0xA82); (0xABC, 0xABC); (0xAC1, 0xAC5);
   (0xAC7, 0xAC8); (0xACD, 0xACD); (0xAE2, 0xAE3); (0xAFA, 0xAFF); (0xB01, 0xB01);
   (0xB3C, 0xB3C); (0xB3F, 0xB3F); (0xB41, 0xB44); (0xB4D, 0xB4D); (0xB55, 0xB56);
   (0xB62, 0xB63); (0xB82, 0xB82); (0xBC0, 0xBC0); (0xBCD, 0xBCD); (0xC00, 0xC00);
   (0xC04, 0xC04); (0xC3C, 0xC3C); (0xC3E, 0xC40); (0xC46, 0xC48); (0xC4A, 0xC4D);
   (0xC55, 0xC56); (0xC62, 0xC63); (0xC81, 0xC81); (0xCBC, 0xCBC); (0xCBF, 0xCBF);
   (0xCC6, 0xCC6); (0xCCC, 0xCCD); (0xCE2, 0xCE3); (0xD00, 0xD01); (0xD3B, 0xD3C);
   (0xD41, 0xD44); (0xD4D, 0xD4D); (0xD62, 0xD63); (0xD81, 0xD81); (0xDCA, 0xDCA);
   (0xDD2, 0xDD4); (0xDD6, 0xDD6); (0xE31, 0xE31); (0xE34, 0xE3A); (0xE46, 0xE4E);
   (0xEB1, 0xEB1); (0xEB4, 0xEBC); (0xEC6, 0xEC6); (0xEC8, 0xECD); (0xF18, 0xF19);
   (0xF35, 0xF35); (0xF37, 0xF37); (0xF39, 0xF39); (0xF71, 0xF7E); (0xF80, 0xF84);
   (0xF86, 0xF87); (0xF8D, 0xF97); (0xF99, 0xFBC); (0xFC6, 0xFC6); (0x102D, 0x1030);
   (0x1032, 0x1037); (0x1039, 0x103A); (0x103D, 0x103E); (0x1058, 0x1059); (0x105E, 0x1060);
   (0x1071, 0x1074); (0x1082, 0x1082); (0x1085, 0x1086); (0x108D, 0x108D); (0x109D, 0x109D);
   (0x10FC, 0x10FC); (0x135D, 0x135F); (0x1712, 0x1714); (0x1732, 0x1733); (0x1752, 0x1753);
   (0x1772, 0x1773); (0x17B4, 0x17B5); (0x17B7, 0x17BD); (0x17C6, 0x17C6); (0x17C9, 0x17D3);
   (0x17D7, 0x17D7); (0x17DD, 0x17DD); (0x180B, 0x180F); (0x1843, 0x1843); (0x1885, 0x1886);
   (0x18A9, 0x18A9); (0x1920, 0x1922); (0x1927, 0x1928); (0x1932, 0x1932); (0x1939, 0x193B);
   (0x1A17, 0x1A18); (0x1A1B, 0x1A1B); (0x1A56, 0x1A56); (0x1A58, 0x1A5E); (0x1A60, 0x1A60);
   (0x1A62, 0x1A62); (0x1A65, 0x1A6C); (0x1A73, 0x1A7C); (0x1A7F, 0x1A7F); (0x1AA7, 0x1AA7);
   (0x1AB0, 0x1ACE); (0x1B00, 0x1B03); (0x1B34, 0x1B34); (0x1B36, 0x1B3A); (0x1B3C, 0x1B3C);
   (0x1B42, 0x1B42); (0x1B6B, 0x1B73); (0x1B80, 0x1B81); (0x1BA2, 0x1BA5); (0x1BA8, 0x1BA9);
   (0x1BAB, 0x1BAD); (0x1BE6, 0x1BE6); (0x1BE8, 0x1BE9); (0x1BED, 0x1BED); (0x1BEF, 0x1BF1);
   (0x1C2C, 0x1C33); (0x1C36, 0x1C37); (0x1C78, 0x1C7D); (0x1CD0, 0x1CD2); (0x1CD4, 0x1CE0);
   (0x1CE2, 0x1CE8); (0x1CED, 0x1CED); (0x1CF4, 0x1CF4); (0x1CF8, 0x1CF9); (0x1D2C, 0x1D6A);
   (0x1D78, 0x1D78); (0x1D9B, 0x1DFF); (0x1FBD, 0x1FBD); (0x1FBF, 0x1FC1); (0x1FCD, 0x1FCF);
   (0x1FDD, 0x1FDF); (0x1FED, 0x1FEF); (0x1FFD, 0x1FFE); (0x200B, 0x200F); (0x2018, 0x2019);
   (0x2024, 0x2024); (0x2027, 0x2027); (0x202A, 0x202E); (0x2060, 0x2064); (0x2066, 0x206F);
   (0x2071, 0x2071); (0x207F, 0x207F); (0x2090, 0x209C); (0x20D0, 0x20F0); (0x2C7C, 0x2C7D);
   (0x2CEF, 0x2CF1); (0x2D6F, 0x2D6F); (0x2D7F, 0x2D7F); (0x2DE0, 0x2DFF); (0x2E2F, 0x2E2F);
   (0x3005, 0x3005); (0x302A, 0x302D); (0x3031, 0x3035); (0x303B, 0x303B); (0x3099, 0x309E);
   (0x30FC, 0x30FE); (0xA015, 0xA015); (0xA4F8, 0xA4FD); (0xA60C, 0xA60C); (0xA66F, 0xA672);
   (0xA674, 0xA67D); (0xA67F, 0xA67F); (0xA69C, 0xA69F); (0xA6F0, 0xA6F1); (0xA700, 0xA721);
   (0xA770, 0xA770); (0xA788, 0xA78A); (0xA7F2, 0xA7F4); (0xA7F8, 0xA7F9); (0xA802, 0xA802);
   (0xA806, 0xA806); (0xA80B, 0xA80B); (0xA825, 0xA826); (0xA82C, 0xA82C); (0xA8C4, 0xA8C5);
   (0xA8E0, 0xA8F1); (0xA8FF, 0xA8FF); (0xA926, 0xA92D); (0xA947, 0xA951); (0xA980, 0xA982);
   (0xA9B3, 0xA9B3); (0xA9B6, 0xA9B9); (0xA9BC, 0xA9BD); (0xA9CF, 0xA9CF); (0xA9E5, 0xA9E6);
   (0xAA29, 0xAA2E); (0xAA31, 0xAA32); (0xAA35, 0xAA36); (0xAA43, 0xAA43); (0xAA4C, 0xAA4C);
   (0xAA70, 0xAA70); (0xAA7C, 0xAA7C); (0xAAB0, 0xAAB0); (0xAAB2, 0xAAB4); (0xAAB7, 0xAAB8);
   (0xAABE, 0xAABF); (0xAAC1, 0xAAC1); (0xAADD, 0xAADD); (0xAAEC, 0xAAED); (0xAAF3, 0xAAF4);
   (0xAAF6, 0xAAF6); (0xAB5B, 0xAB5F); (0xAB69, 0xAB6B); (0xABE5, 0xABE5); (0xABE8, 0xABE8);
   (0xABED, 0xABED); (0xFB1E, 0xFB1E); (0xFBB2, 0xFBC2); (0xFE00, 0xFE0F); (0xFE13, 0xFE13);
   (0xFE20, 0xFE2F); (0xFE52, 0xFE52); (0xFE55, 0xFE55); (0xFEFF, 0xFEFF); (0xFF07, 0xFF07);
   (0xFF0E, 0xFF0E); (0xFF1A, 0xFF1A); (0xFF3E, 0xFF3E); (0xFF40, 0xFF40); (0xFF70, 0xFF70);
   (0xFF9E, 0xFF9F); (0xFFE3, 0xFFE3); (0xFFF9, 0xFFFB); (0x101FD, 0x101FD); (0x102E0, 0x102E0);
   (0x10376, 0x1037A); (0x10780, 0x10785); (0x10787, 0x107B0); (0x107B2, 0x107BA); (0x10A01, 0x10A03);
   (0x10A05, 0x10A06); (0x10A0C, 0x10A0F); (0x10A38, 0x10A3A); (0x10A3F, 0x10A3F); (0x10AE5, 0x10AE6);
   (0x10D24, 0x10D27); (0x10EAB, 0x10EAC); (0x10F46, 0x10F50); (0x10F82, 0x10F85); (0x11001, 0x11001);
   (0x11038, 0x11046); (0x11070, 0x11070); (0x11073, 0x11074); (0x1107F, 0x11081); (0x110B3, 0x110B6);
   (0x110B9, 0x110BA); (0x110BD, 0x110BD); (0x110C2, 0x110C2); (0x110CD, 0x110CD); (0x11100, 0x11102);
   (0x11127, 0x1112B); (0x1112D, 0x11134); (0x11173, 0x11173); (0x11180, 0x11181); (0x111B6, 0x111BE);
   (0x111C9, 0x111CC); (0x111CF, 0x111CF); (0x1122F, 0x11231); (0x11234, 0x11234); (0x11236, 0x11237);
   (0x1123E, 0x1123E); (0x112DF, 0x112DF); (0x112E3, 0x112EA); (0x11300, 0x11301); (0x1133B, 0x1133C);
   (0x11340, 0x11340); (0x11366, 0x1136C); (0x11370, 0x11374); (0x11438, 0x1143F); (0x11442, 0x11444);
   (0x11446, 0x11446); (0x1145E, 0x1145E); (0x114B3, 0x114B8); (0x114BA, 0x114BA); (0x114BF, 0x114C0);
   (0x114C2, 0x114C3); (0x115B2, 0x115B5); (0x115BC, 0x115BD); (0x115BF, 0x115C0); (0x115DC, 0x115DD);
   (0x11633, 0x1163A); (0x1163D, 0x1163D); (0x1163F, 0x11640); (0x116AB, 0x116AB); (0x116AD, 0x116AD);
   (0x116B0, 0x116B5); (0x116B7, 0x116B7); (0x1171D, 0x1171F); (0x11722, 0x11725); (0x11727, 0x1172B);
   (0x1182F, 0x11837); (0x11839, 0x1183A); (0x1193B, 0x1193C); (0x1193E, 0x1193E); (0x11943, 0x11943);
   (0x119D4, 0x119D7); (0x119DA, 0x119DB); (0x119E0, 0x119E0); (0x11A01, 0x11A0A); (0x11A33, 0x11A38);
   (0x11A3B, 0x11A3E); (0x11A47, 0x11A47); (0x11A51, 0x11A56); (0x11A59, 0x11A5B); (0x11A8A, 0x11A96);
   (0x11A98, 0x11A99); (0x11C30, 0x11C36); (0x11C38, 0x11C3D); (0x11C3F, 0x11C3F); (0x11C92, 0x11CA7);
   (0x11CAA, 0x11CB0); (0x11CB2, 0x11CB3); (0x11CB5, 0x11CB6); (0x11D31, 0x11D36); (0x11D3A, 0x11D3A);
   (0x11D3C, 0x11D3D); (0x11D3F, 0x11D45); (0x11D47, 0x11D47); (0x11D90, 0x11D91); (0x11D95, 0x11D95);
   (0x11D97, 0x11D97); (0x11EF3, 0x11EF4); (0x13430, 0x13438); (0x16AF0, 0x16AF4); (0x16B30, 0x16B36);
   (0x16B40, 0x16B43); (0x16F4F, 0x16F4F); (0x16F8F, 0x16F9F); (0x16FE0, 0x16FE1); (0x16FE3, 0x16FE4);
   (0x1AFF0, 0x1AFF3); (0x1AFF5, 0x1AFFB); (0x1AFFD, 0x1AFFE); (0x1BC9D, 0x1BC9E); (0x1BCA0, 0x1BCA3);
   (0x1CF00, 0x1CF2D); (0x1CF30, 0x1CF46); (0x1D167, 0x1D169); (0x1D173, 0x1D182); (0x1D185, 0x1D18B);
   (0x1D1AA, 0x1D1AD); (0x1D242, 0x1D244); (0x1DA00, 0x1DA36); (0x1DA3B, 0x1DA6C); (0x1DA75, 0x1DA75);
   (0x1DA84, 0x1DA84); (0x1DA9B, 0x1DA9F); (0x1DAA1, 0x1DAAF); (0x1E000, 0x1E006); (0x1E008, 0x1E018);
   (0x1E01B, 0x1E021); (0x1E023, 0x1E024); (0x1E026, 0x1E02A); (0x1E130, 0x1E13D); (0x1E2AE, 0x1E2AE);
   (0x1E2EC, 0x1E2EF); (0x1E8D0, 0x1E8D6); (0x1E944, 0x1E94B); (0x1F3FB, 0x1F3FF); (0xE0001, 0xE0001);
   (0xE0020, 0xE007F); (0xE0100, 0xE01EF)
  ].

Definition lower_table : list (char * str) :=
  Eval vm_compute in lower_special ++ flat_map run_entries lower_runs.

Definition upper_table : list (char * str) :=
  Eval vm_compute in upper_special ++ flat_map run_entries upper_runs.

Fixpoint assoc (c : char) (t : list (char * str)) : option str :=
  match t with
  | [] => None
  | (k, m) :: t' => if k =? c then Some m else assoc c t'
  end.

(** Well-formedness of a table: no code point is listed twice, and keys and
    mapped characters are code points (at most U+10FFFF). *)
Fixpoint keys_distinct (t : list (char * str)) : bool :=
  match t with
  | [] => true
  | (k, _) :: t' => negb (existsb (fun p => fst p =? k) t') && keys_distinct t'
  end.

Definition is_code_point (c : char) : bool := (0 <=? c) && (c <=? 0x10FFFF).

Definition table_code_points (t : list (char * str)) : bool :=
  forallb (fun p => is_code_point (fst p) && forallb is_code_point (snd p)) t.

Definition in_ranges (c : char) (rs : list (char * char)) : bool :=
  existsb (fun r => (fst r <=? c) && (c <=? snd r)) rs.

(** [_PyUnicode_ToLowerFull] and [_PyUnicode_ToUpperFull]: the full case
    mapping of one code point, which may be longer than one code point. *)

Definition PyUnicode_ToLowerFull (c : char) : str :=
  match assoc c lower_table with
  | Some m => m
  | None => [c]
  end.

Definition PyUnicode_ToUpperFull (c : char) : str :=
  match assoc c upper_table with
  | Some m => m
  | None => [c]
  end.

(** [_PyUnicode_IsCased] and [_PyUnicode_IsCaseIgnorable]: the derived core
    properties Cased and Case_Ignorable. *)

Definition PyUnicode_IsCased (c : char) : bool := in_ranges c cased_ranges.

Definition PyUnicode_IsCaseIgnorable (c : char) : bool :=
  in_ranges c case_ignorable_ranges.

(** ** [str.lower] and [str.upper] (Objects/unicodeobject.c) *)

Definition capital_sigma : char := 0x3A3.
Definition small_final_sigma : char := 0x3C2.
Definition small_sigma : char := 0x3C3.

(** The first code point of [s] that is not case-ignorable, if any: what the
    two scanning loops of [handle_capital_sigma] stop at. *)
Fixpoint first_not_ignorable (s : str) : option char :=
  match s with
  | [] => None
  | c :: s' =>
      if PyUnicode_IsCaseIgnorable c then first_not_ignorable s' else Some c
  end.

(** U+03A3 at index [i] of [data] is in the Final_Sigma context when a cased
    code point comes before it and none after it, case-ignorable code points
    skipped on both sides. *)
Definition handle_capital_sigma (data : str) (i : nat) : char :=
  let final_sigma :=
    match first_not_ignorable (rev (firstn i data)) with
    | Some c => PyUnicode_IsCased c
    | None => false
    end in
  let final_sigma :=
    if final_sigma then
      match first_not_ignorable (skipn (S i) data) with
      | Some c => negb (PyUnicode_IsCased c)
      | None => true
      end
    else false in
  if final_sigma then small_final_sigma else small_sigma.

Definition lower_ucs4 (data : str) (i : nat) (c : char) : str :=
  if c =? capital_sigma then [handle_capital_sigma data i]
  else PyUnicode_ToLowerFull c.

Definition do_lower (data : str) : str :=
  flat_map (fun i => lower_ucs4 data i (nth i data 0))
           (seq 0 (List.length data)).

Definition do_upper (data : str) : str :=
  flat_map PyUnicode_ToUpperFull data.

Definition str_lower (s : str) : str := do_lower s.
Definition str_upper (s : str) : str := do_upper s.

(** ["".join(parts)] *)
Definition str_join_empty (parts : list str) : str := List.concat parts.

(** ** The interpreter state the script touches

    [sys.argv] is read; [sys.stdout] is a text stream with a codec, which
    takes the strings written to it and refuses a string with a character
    it cannot encode; an exception that nobody catches ends the run. *)

Inductive exn := IndexError | UnicodeEncodeError.

Definition newline : char := 10.

(** The codec of a text stream, with the error handler [strict]: the code
    points it can encode.  Every codec encodes the line feed. *)
Record text_codec := Codec {
  encodes : char -> bool;
  encodes_newline : encodes newline = true
}.

Definition is_surrogate (c : char) : bool := (0xD800 <=? c) && (c <=? 0xDFFF).

(** UTF-8 encodes every code point but the surrogates; ASCII the code
    points below 128; Latin-1 those below 256. *)
Definition codec_utf_8 : text_codec :=
  Codec (fun c => negb (is_surrogate c)) eq_refl.


Definition codec_latin_1 : text_codec :=
  Codec (fun c => (0 <=? c) && (c <=? 255)) eq_refl.

Record world := World {
  sys_argv : list str;
  sys_stdout_codec : text_codec;
  sys_stdout : str
}.

Definition py (A : Type) : Type := world -> (exn + A) * world.

Definition pure {A} (a : A) : py A := fun w => (inr a, w).

Definition bind {A B} (m : py A) (k : A -> py B) : py B :=
  fun w =>
    match m w with
    | (inl e, w') => (inl e, w')
    | (inr a, w') => k a w'
    end.

Definition raise {A} (e : exn) : py A := fun w => (inl e, w).

Notation "x <- m ;; k" := (bind m (fun x => k))
  (at level 61, m at next level, right associativity).
Notation "m ;; k" := (bind m (fun _ => k))
  (at level 61, right associativity).

Definition get_sys_argv : py (list str) := fun w => (inr (sys_argv w), w).

(** [l[i]] for [i >= 0]: IndexError when [i] is not below [len(l)]. *)
Definition list_getitem {A} (l : list A) (i : nat) : py A :=
  match nth_error l i with
  | Some x => pure x
  | None => raise IndexError
  end.

Definition list_append {A} (l : list A) (x : A) : list A := l ++ [x].

(** [sys.stdout.write(s)]: [s] is encoded as a whole; with a character the
    codec cannot encode, UnicodeEncodeError is raised and nothing of [s] is
    written. *)
Definition stdout_write (s : str) : py unit :=
  fun w =>
    if forallb (encodes (sys_stdout_codec w)) s then
      (inr tt, World (sys_argv w) (sys_stdout_codec w) (sys_stdout w ++ s))
    else (inl UnicodeEncodeError, w).

(** [print(s)]: [s] is written to [sys.stdout], then the line end. *)
Definition print (s : str) : py unit :=
  stdout_write s ;;
  stdout_write [newline].

(** ** kw.py *)

Definition lbracket : char := ord "[".
Definition rbracket : char := ord "]".

(** The body of [for ch in kw]: four appends to [ret]. *)
Definition main_loop_body (ret : list str) (ch : char) : list str :=
  let ret := list_append ret [lbracket] in
  let ret := list_append ret (str_lower [ch]) in
  let ret := list_append ret (str_upper [ch]) in
  let ret := list_append ret [rbracket] in
  ret.

(** The value handed to [print]: ["".join(ret)] after the loop. *)
Definition keyword_pattern (kw : str) : str :=
  let ret := fold_left main_loop_body kw [] in
  str_join_empty ret.

Definition main : py unit :=
  argv <- get_sys_argv ;;
  kw <- list_getitem argv 1 ;;
  print (keyword_pattern kw) ;;
  pure tt.

(** Running the file as a script: [main()] is called, and the process ends
    with status 0, or with status 1 when an exception reaches the top. *)
Record process_result := Result {
  written : str;
  exit_status : Z
}.

Definition run_script (codec : text_codec) (argv : list str)
  : process_result :=
  match main (World argv codec []) with
  | (inr _, w) => Result (sys_stdout w) 0
  | (inl _, w) => Result (sys_stdout w) 1
  end.

(** ** Notions used by the statements *)

(** The bracket group of one character. *)
Definition bracket_group (ch : char) : str :=
  [lbracket] ++ str_lower [ch] ++ str_upper [ch] ++ [rbracket].

(** Both case mappings of [ch] are one character long. *)
Definition simple_case (ch : char) : bool :=
  (List.length (str_lower [ch]) =? 1)%nat &&
  (List.length (str_upper [ch]) =? 1)%nat.

(** A group of exactly four characters: a bracket, the one-character lower
    and upper forms of [ch], a bracket. *)
Definition four_char_group (ch : char) (g : str) : Prop :=
  exists l u, str_lower [ch] = [l] /\ str_upper [ch] = [u] /\
              g = [lbracket; l; u; rbracket].

Definition four_char_groups (kw out : str) : Prop :=
  exists gs, Forall2 four_char_group kw gs /\ out = List.concat gs.

Definition is_bracket (c : char) : bool := (c =? lbracket) || (c =? rbracket).

Definition has_bracket (s : str) : bool := existsb is_bracket s.

(** One pass over [s] that tracks whether a group is open: an opening
    bracket needs no group open, a closing bracket needs one; the result is
    the state at the end, or [None] at the first violation. *)
Fixpoint scan_brackets (open : bool) (s : str) : option bool :=
  match s with
  | [] => Some open
  | c :: s' =>
      if c =? lbracket then
        if open then None else scan_brackets true s'
      else if c =? rbracket then
        if open then scan_brackets false s' else None
      else scan_brackets open s'
  end.

Definition brackets_alternate (s : str) : bool :=
  match scan_brackets false s with
  | Some false => true
  | _ => false
  end.

Definition count_char (c : char) (s : str) : nat := count_occ Z.eq_dec s c.

(** The ASCII characters, as a predicate and as a list. *)
Definition is_ascii (c : char) : bool := (0 <=? c) && (c <=? 127).

Definition ascii_chars : list char := map Z.of_nat (seq 0 128).

(** What a group holds between its brackets. *)
Definition group_content (ch : char) : str := str_lower [ch] ++ str_upper [ch].

(** The list [ret] when the loop of [main] has ended. *)
Definition ret_after_loop (kw : str) : list str :=
  fold_left main_loop_body kw [].

(** The entries of [ret] at the indices 4i + k, i below the length of the
    keyword: with k = 1 the lower case parts, with k = 2 the upper case
    parts. *)
Definition ret_column (k : nat) (kw : str) : list str :=
  map (fun i => nth (4 * i + k) (ret_after_loop kw) [])
      (seq 0 (List.length kw)).

(** ** Small checks of the embedding *)

Lemma case_tables_from_runs :
  lower_table = lower_special ++ flat_map run_entries lower_runs /\
  upper_table = upper_special ++ flat_map run_entries upper_runs.
Proof. split; vm_compute; reflexivity. Qed.

Lemma case_tables_well_formed :
  keys_distinct lower_table = true /\ table_code_points lower_table = true /\
  keys_distinct upper_table = true /\ table_code_points upper_table = true.
Proof. repeat split; vm_compute; reflexivity. Qed.

Example lower_A : str_lower (str_of "A") = str_of "a".
Proof. reflexivity. Qed.

Example upper_eszett : str_upper [0xDF] = str_of "SS".
Proof. reflexivity. Qed.

Example lower_I_dot : str_lower [0x130] = [0x69; 0x307].
Proof. reflexivity. Qed.

Example lower_final_sigma :
  str_lower [0x39F; 0x394; 0x39F; 0x3A3] = [0x3BF; 0x3B4; 0x3BF; 0x3C2].
Proof. reflexivity. Qed.

Example lower_lone_sigma : str_lower [0x3A3] = [0x3C3].
Proof. reflexivity. Qed.

Example pattern_eszett :
  keyword_pattern [0xDF] = [lbracket; 0xDF; 0x53; 0x53; rbracket].
Proof. reflexivity. Qed.

(** ** The loop and the join *)

Lemma fold_left_main_loop_body (kw : str) (acc : list str) :
  fold_left main_loop_body kw acc =
  acc ++ flat_map (fun ch => [[lbracket]; str_lower [ch]; str_upper [ch];
                              [rbracket]]) kw.
Proof.
  revert acc; induction kw as [|ch kw IH]; intros acc; simpl.
  - now rewrite app_nil_r.
  - rewrite IH. unfold main_loop_body, list_append.
    now rewrite <- !app_assoc.
Qed.

Lemma keyword_pattern_flat_map (kw : str) :
  keyword_pattern kw = flat_map bracket_group kw.
Proof.
  unfold keyword_pattern, str_join_empty.
  rewrite fold_left_main_loop_body. simpl.
  induction kw as [|ch kw IH]; simpl; [reflexivity|].
  rewrite IH, app_nil_r. unfold bracket_group. simpl.
  now rewrite <- !app_assoc.
Qed.

Lemma keyword_pattern_cons (ch : char) (kw : str) :
  keyword_pattern (ch :: kw) = bracket_group ch ++ keyword_pattern kw.
Proof. now rewrite !keyword_pattern_flat_map. Qed.

Lemma main_with_arg (codec : text_codec) (argv : list str) (kw : str) :
  nth_error argv 1 = Some kw ->
  main (World argv codec []) =
  if forallb (encodes codec) (keyword_pattern kw)
  then (inr tt, World argv codec (keyword_pattern kw ++ [newline]))
  else (inl UnicodeEncodeError, World argv codec []).
Proof.
  intros H. unfold main, bind, get_sys_argv, list_getitem.
  cbn [sys_argv]. rewrite H. unfold pure, print, bind, stdout_write.
  cbn [sys_argv sys_stdout_codec sys_stdout app].
  destruct (forallb (encodes codec) (keyword_pattern kw)); [|reflexivity].
  cbn [sys_argv sys_stdout_codec sys_stdout forallb].
  rewrite (encodes_newline codec). reflexivity.
Qed.

Lemma main_without_arg (codec : text_codec) (argv : list str) :
  nth_error argv 1 = None ->
  main (World argv codec []) = (inl IndexError, World argv codec []).
Proof.
  intros H. unfold main, bind, get_sys_argv, list_getitem.
  cbn [sys_argv]. rewrite H. reflexivity.
Qed.

Lemma run_script_cases (codec : text_codec) (argv : list str) :
  run_script codec argv =
  match nth_error argv 1 with
  | Some kw =>
      if forallb (encodes codec) (keyword_pattern kw)
      then Result (keyword_pattern kw ++ [newline]) 0
      else Result [] 1
  | None => Result [] 1
  end.
Proof.
  unfold run_script. destruct (nth_error argv 1) as [kw|] eqn:E.
  - rewrite (main_with_arg _ _ _ E).
    now destruct (forallb (encodes codec) (keyword_pattern kw)).
  - now rewrite (main_without_arg _ _ E).
Qed.

(** ** The case mappings of one character *)

Lemma assoc_In (c : char) (t : list (char * str)) (m : str) :
  assoc c t = Some m -> In (c, m) t.
Proof.
  induction t as [|[k v] t IH]; simpl; [discriminate|].
  destruct (Z.eqb_spec k c) as [->|_].
  - intros [= ->]. now left.
  - intros H. right. auto.
Qed.

Lemma table_forall (P : char * str -> bool) (t : list (char * str))
      (c : char) (m : str) :
  forallb P t = true -> assoc c t = Some m -> P (c, m) = true.
Proof.
  intros Hall Hc. rewrite forallb_forall in Hall.
  apply Hall. now apply assoc_In.
Qed.

Lemma str_eqb_eq (a b : str) : str_eqb a b = true -> a = b.
Proof.
  revert b; induction a as [|x a IH]; intros [|y b]; simpl;
    try discriminate; [reflexivity|].
  intros H. apply andb_prop in H as [Hx Hab].
  apply Z.eqb_eq in Hx. subst. f_equal. auto.
Qed.

Lemma str_lower_char (c : char) : str_lower [c] = PyUnicode_ToLowerFull c.
Proof.
  unfold str_lower, do_lower, lower_ucs4. simpl. rewrite app_nil_r.
  destruct (Z.eqb_spec c capital_sigma) as [->|_]; reflexivity.
Qed.

Lemma str_upper_char (c : char) : str_upper [c] = PyUnicode_ToUpperFull c.
Proof. unfold str_upper, do_upper. simpl. apply app_nil_r. Qed.

Lemma lower_unmapped (c : char) :
  assoc c lower_table = None -> str_lower [c] = [c].
Proof.
  intros H. rewrite str_lower_char. unfold PyUnicode_ToLowerFull.
  now rewrite H.
Qed.

Lemma upper_unmapped (c : char) :
  assoc c upper_table = None -> str_upper [c] = [c].
Proof.
  intros H. rewrite str_upper_char. unfold PyUnicode_ToUpperFull.
  now rewrite H.
Qed.

(** Every code point with a case mapping other than itself is Cased. *)
Lemma mapped_is_cased :
  forallb (fun p => PyUnicode_IsCased (fst p)) lower_table = true /\
  forallb (fun p => PyUnicode_IsCased (fst p)) upper_table = true.
Proof. split; vm_compute; reflexivity. Qed.

Lemma uncased_unmapped (c : char) :
  PyUnicode_IsCased c = false ->
  assoc c lower_table = None /\ assoc c upper_table = None.
Proof.
  intros Hc. destruct mapped_is_cased as [Hl Hu]. split.
  - destruct (assoc c lower_table) as [m|] eqn:E; [|reflexivity].
    pose proof (table_forall _ _ _ _ Hl E) as H. simpl in H. congruence.
  - destruct (assoc c upper_table) as [m|] eqn:E; [|reflexivity].
    pose proof (table_forall _ _ _ _ Hu E) as H. simpl in H. congruence.
Qed.

(** Mapping the mapped form again changes nothing, entry by entry. *)
Lemma tables_stable :
  forallb (fun p => str_eqb (str_lower (snd p)) (snd p)) lower_table = true /\
  forallb (fun p => str_eqb (str_upper (snd p)) (snd p)) upper_table = true.
Proof. split; vm_compute; reflexivity. Qed.

(** No case mapping produces a bracket. *)
Lemma tables_bracket_free :
  forallb (fun p => negb (has_bracket (snd p))) lower_table = true /\
  forallb (fun p => negb (has_bracket (snd p))) upper_table = true.
Proof. split; vm_compute; reflexivity. Qed.

Lemma lower_bracket_free (c : char) :
  is_bracket c = false -> has_bracket (str_lower [c]) = false.
Proof.
  intros Hc. destruct (assoc c lower_table) as [m|] eqn:E.
  - rewrite str_lower_char. unfold PyUnicode_ToLowerFull. rewrite E.
    pose proof (table_forall _ _ _ _ (proj1 tables_bracket_free) E) as H.
    simpl in H. now apply negb_true_iff in H.
  - rewrite (lower_unmapped _ E). simpl. now rewrite Hc.
Qed.

Lemma upper_bracket_free (c : char) :
  is_bracket c = false -> has_bracket (str_upper [c]) = false.
Proof.
  intros Hc. destruct (assoc c upper_table) as [m|] eqn:E.
  - rewrite str_upper_char. unfold PyUnicode_ToUpperFull. rewrite E.
    pose proof (table_forall _ _ _ _ (proj2 tables_bracket_free) E) as H.
    simpl in H. now apply negb_true_iff in H.
  - rewrite (upper_unmapped _ E). simpl. now rewrite Hc.
Qed.

(** Every ASCII character has one-character case mappings. *)
Lemma tables_ascii_single :
  forallb (fun p => (127 <? fst p) || (List.length (snd p) =? 1)%nat)
          lower_table = true /\
  forallb (fun p => (127 <? fst p) || (List.length (snd p) =? 1)%nat)
          upper_table = true.
Proof. split; vm_compute; reflexivity. Qed.

Lemma ascii_simple_case (c : char) : c <= 127 -> simple_case c = true.
Proof.
  intros Hc. unfold simple_case. apply andb_true_intro. split.
  - destruct (assoc c lower_table) as [m|] eqn:E.
    + rewrite str_lower_char. unfold PyUnicode_ToLowerFull. rewrite E.
      pose proof (table_forall _ _ _ _ (proj1 tables_ascii_single) E) as H.
      simpl in H. apply orb_prop in H as [H|H]; [|exact H].
      apply Z.ltb_lt in H. lia.
    + now rewrite (lower_unmapped _ E).
  - destruct (assoc c upper_table) as [m|] eqn:E.
    + rewrite str_upper_char. unfold PyUnicode_ToUpperFull. rewrite E.
      pose proof (table_forall _ _ _ _ (proj2 tables_ascii_single) E) as H.
      simpl in H. apply orb_prop in H as [H|H]; [|exact H].
      apply Z.ltb_lt in H. lia.
    + now rewrite (upper_unmapped _ E).
Qed.

(** ** Brackets in the pattern *)

Lemma has_bracket_app (a b : str) :
  has_bracket (a ++ b) = has_bracket a || has_bracket b.
Proof. apply existsb_app. Qed.

Lemma count_char_app (c : char) (a b : str) :
  count_char c (a ++ b) = (count_char c a + count_char c b)%nat.
Proof. apply count_occ_app. Qed.

Lemma count_char_bracket_free (s : str) :
  has_bracket s = false ->
  count_char lbracket s = 0%nat /\ count_char rbracket s = 0%nat.
Proof.
  unfold count_char.
  induction s as [|x s IH]; simpl; [now split|].
  intros H. apply orb_false_elim in H as [Hx Hs].
  apply orb_false_elim in Hx as [Hl Hr].
  apply Z.eqb_neq in Hl, Hr. destruct (IH Hs) as [IHl IHr].
  split.
  - destruct (Z.eq_dec x lbracket); [contradiction|exact IHl].
  - destruct (Z.eq_dec x rbracket); [contradiction|exact IHr].
Qed.

Lemma scan_brackets_app (open : bool) (a b : str) :
  scan_brackets open (a ++ b) =
  match scan_brackets open a with
  | Some open' => scan_brackets open' b
  | None => None
  end.
Proof.
  revert open; induction a as [|x a IH]; intros open; simpl; [reflexivity|].
  destruct (x =? lbracket); [destruct open; auto|].
  destruct (x =? rbracket); [destruct open; auto|]. auto.
Qed.

Lemma scan_brackets_bracket_free (open : bool) (s : str) :
  has_bracket s = false -> scan_brackets open s = Some open.
Proof.
  induction s as [|x s IH]; simpl; [reflexivity|].
  intros H. apply orb_false_elim in H as [Hx Hs].
  apply orb_false_elim in Hx as [Hl Hr].
  rewrite Hl, Hr. auto.
Qed.

Lemma group_inner_bracket_free (ch : char) :
  is_bracket ch = false ->
  has_bracket (str_lower [ch] ++ str_upper [ch]) = false.
Proof.
  intros H. rewrite has_bracket_app.
  now rewrite lower_bracket_free, upper_bracket_free.
Qed.

Lemma bracket_group_split (ch : char) :
  bracket_group ch =
  [lbracket] ++ (str_lower [ch] ++ str_upper [ch]) ++ [rbracket].
Proof. unfold bracket_group. now rewrite <- app_assoc. Qed.

Lemma bracket_group_counts (ch : char) :
  is_bracket ch = false ->
  count_char lbracket (bracket_group ch) = 1%nat /\
  count_char rbracket (bracket_group ch) = 1%nat.
Proof.
  intros H. rewrite bracket_group_split.
  destruct (count_char_bracket_free _ (group_inner_bracket_free _ H))
    as [Hl Hr].
  set (inner := str_lower [ch] ++ str_upper [ch]) in *.
  rewrite !count_char_app, Hl, Hr.
  split; reflexivity.
Qed.

Lemma bracket_group_scan (ch : char) (rest : str) :
  is_bracket ch = false ->
  scan_brackets false (bracket_group ch ++ rest) = scan_brackets false rest.
Proof.
  intros H. rewrite bracket_group_split.
  pose proof (group_inner_bracket_free _ H) as Hin.
  set (inner := str_lower [ch] ++ str_upper [ch]) in *.
  rewrite <- !app_assoc.
  change (scan_brackets false ([lbracket] ++ ?t)) with (scan_brackets true t).
  rewrite scan_brackets_app, (scan_brackets_bracket_free _ _ Hin).
  reflexivity.
Qed.

Lemma bracket_group_simple (ch : char) :
  simple_case ch = true -> four_char_group ch (bracket_group ch).
Proof.
  unfold simple_case, four_char_group, bracket_group. intros H.
  apply andb_prop in H as [Hl Hu]. apply Nat.eqb_eq in Hl, Hu.
  destruct (str_lower [ch]) as [|l [|? ?]]; try discriminate.
  destruct (str_upper [ch]) as [|u [|? ?]]; try discriminate.
  now exists l, u.
Qed.

(** ** Length of the pattern *)

(** C1, as stated, fails: the keyword made of the one character U+00DF
    (sharp s, whose upper case is the two characters SS) has length 1, and
    its pattern has length 5, not 4. *)
Lemma pattern_length_sharp_s :
  List.length (keyword_pattern [0xDF]) = 5%nat /\
  List.length (keyword_pattern [0xDF]) <> (4 * List.length [0xDF%Z])%nat.
Proof. split; [reflexivity|vm_compute; discriminate]. Qed.

(** C1, amended: for every keyword of length n all of whose characters have
    one-character lower and upper case mappings, the pattern has length
    exactly 4n. *)
Theorem pattern_length_4n (kw : str) :
  forallb simple_case kw = true ->
  List.length (keyword_pattern kw) = (4 * List.length kw)%nat.
Proof.
  induction kw as [|ch kw IH]; [reflexivity|].
  cbn [forallb]. intros H. apply andb_prop in H as [Hch Hkw].
  rewrite keyword_pattern_cons, length_app, (IH Hkw).
  destruct (bracket_group_simple _ Hch) as (l & u & _ & _ & ->).
  cbn [List.length]. lia.
Qed.

Lemma pattern_length_4n_witness :
  forallb simple_case (str_of "Zz!") = true /\
  List.length (keyword_pattern (str_of "Zz!")) =
  (4 * List.length (str_of "Zz!"))%nat.
Proof.
  split; [reflexivity|apply (pattern_length_4n (str_of "Zz!")); reflexivity].
Defined.

(** Keywords of ASCII characters, the ones the amended C1 is about in
    practice, meet its hypothesis. *)
Lemma ascii_keyword_simple (kw : str) :
  Forall (fun c => c <= 127) kw -> forallb simple_case kw = true.
Proof.
  induction 1 as [|c kw Hc _ IH]; [reflexivity|].
  cbn [forallb]. now rewrite (ascii_simple_case _ Hc), IH.
Qed.

(** ** Shape of the pattern *)

(** C2, as stated, fails: the pattern of the keyword U+00DF is the single
    group of five characters "[", U+00DF, "S", "S", "]", so it is not a
    concatenation of four-character groups. *)
Lemma pattern_groups_sharp_s :
  ~ four_char_groups [0xDF] (keyword_pattern [0xDF]).
Proof.
  intros (gs & HF & _). inversion HF as [|c g kw' gs' Hg _]; subst.
  destruct Hg as (l & u & _ & Hu & _). vm_compute in Hu. discriminate.
Qed.

(** C2, amended: for every keyword the pattern is the concatenation, in the
    order of the keyword's characters, of one group per character c, each
    group being "[" then lower(c) then upper(c) then "]", where lower(c) and
    upper(c) are strings of one or more characters; when both are single
    characters for every c of the keyword, every group is the four
    characters of the claim. *)
Theorem pattern_is_groups (kw : str) :
  keyword_pattern kw = flat_map bracket_group kw /\
  (forallb simple_case kw = true ->
   four_char_groups kw (keyword_pattern kw)).
Proof.
  split; [apply keyword_pattern_flat_map|].
  intros H. exists (map bracket_group kw). split.
  - induction kw as [|ch kw IH]; [constructor|].
    cbn [forallb] in H. apply andb_prop in H as [Hch Hkw].
    cbn [map]. constructor; [now apply bracket_group_simple|auto].
  - rewrite keyword_pattern_flat_map. apply flat_map_concat_map.
Qed.

Lemma pattern_is_groups_witness :
  forallb simple_case (str_of "ab") = true /\
  four_char_groups (str_of "ab") (keyword_pattern (str_of "ab")).
Proof.
  split; [reflexivity|].
  apply (proj2 (pattern_is_groups (str_of "ab"))). reflexivity.
Defined.

(** ** Runs of the script *)








(** C4: without an argument ([sys.argv] holds the script name at most), the
    access [sys.argv[1]] raises IndexError, nothing is printed, and the
    process ends with a status other than 0, whatever the codec of
    [sys.stdout]. *)
Theorem missing_argument (codec : text_codec) (argv : list str) :
  (List.length argv <= 1)%nat ->
  main (World argv codec []) = (inl IndexError, World argv codec []) /\
  written (run_script codec argv) = [] /\
  exit_status (run_script codec argv) <> 0.
Proof.
  intros H.
  assert (Hn : nth_error argv 1 = None) by now apply nth_error_None.
  rewrite run_script_cases, Hn. repeat split; [|discriminate].
  now apply main_without_arg.
Qed.

Lemma missing_argument_witness :
  (List.length [str_of "kw.py"] <= 1)%nat /\
  written (run_script codec_utf_8 [str_of "kw.py"]) = [] /\
  exit_status (run_script codec_utf_8 [str_of "kw.py"]) <> 0.
Proof.
  split; [apply Nat.le_refl|].
  apply (proj2 (missing_argument codec_utf_8 [str_of "kw.py"]
                                 (Nat.le_refl 1))).
Defined.

(** C5: for the empty keyword the pattern is empty, the process ends with
    status 0, and what is printed is the empty pattern and a newline,
    whatever the codec of [sys.stdout]. *)
Theorem empty_keyword (codec : text_codec) (prog : str) (rest : list str) :
  keyword_pattern [] = [] /\
  run_script codec (prog :: [] :: rest) = Result [newline] 0.
Proof. split; [reflexivity|]. now rewrite run_script_cases. Qed.

(** ** Characters without case *)

(** The ASCII characters other than the letters (digits, punctuation,
    symbols, blanks, controls) are without case. *)
Example ascii_non_letters_uncased :
  forallb (fun c => (65 <=? c) && (c <=? 90) || (97 <=? c) && (c <=? 122)
                    || negb (PyUnicode_IsCased c))
          (map Z.of_nat (seq 0 128)) = true.
Proof. vm_compute. reflexivity. Qed.

(** C6: a character c without case (not Cased: the digits, the punctuation,
    the symbols that have no case forms) is its own lower and upper case, and
    its bracket group is "[" c c "]". *)
Theorem uncased_group (c : char) :
  PyUnicode_IsCased c = false ->
  str_lower [c] = [c] /\ str_upper [c] = [c] /\
  keyword_pattern [c] = [lbracket; c; c; rbracket].
Proof.
  intros H. destruct (uncased_unmapped _ H) as [Hl Hu].
  pose proof (lower_unmapped _ Hl) as El.
  pose proof (upper_unmapped _ Hu) as Eu.
  repeat split; [exact El|exact Eu|].
  rewrite keyword_pattern_flat_map. cbn [flat_map].
  unfold bracket_group. rewrite El, Eu. reflexivity.
Qed.

Lemma uncased_group_witness :
  PyUnicode_IsCased (ord "1") = false /\
  keyword_pattern [ord "1"] = str_of "[11]".
Proof.
  split; [reflexivity|].
  apply (proj2 (proj2 (uncased_group (ord "1") eq_refl))).
Defined.

(** ** Idempotence *)

(** C7: for every character c, lower(lower(c)) = lower(c) and
    upper(upper(c)) = upper(c), the outer application being that of
    [str.lower] and [str.upper] to the string the inner one returns. *)
Theorem case_mapping_idempotent (c : char) :
  str_lower (str_lower [c]) = str_lower [c] /\
  str_upper (str_upper [c]) = str_upper [c].
Proof.
  destruct tables_stable as [Hl Hu]. split.
  - destruct (assoc c lower_table) as [m|] eqn:E.
    + rewrite str_lower_char. unfold PyUnicode_ToLowerFull. rewrite E.
      apply str_eqb_eq. exact (table_forall _ _ _ _ Hl E).
    + now rewrite !(lower_unmapped _ E).
  - destruct (assoc c upper_table) as [m|] eqn:E.
    + rewrite str_upper_char. unfold PyUnicode_ToUpperFull. rewrite E.
      apply str_eqb_eq. exact (table_forall _ _ _ _ Hu E).
    + now rewrite !(upper_unmapped _ E).
Qed.

(** ** Scenarios *)

(** C8: the keywords "ab", "A", "1" and "Zz!" give the patterns "[aA][bB]",
    "[aA]", "[11]" and "[zZ][zZ][!!]". *)
Theorem concrete_scenarios :
  keyword_pattern (str_of "ab") = str_of "[aA][bB]" /\
  keyword_pattern (str_of "A") = str_of "[aA]" /\
  keyword_pattern (str_of "1") = str_of "[11]" /\
  keyword_pattern (str_of "Zz!") = str_of "[zZ][zZ][!!]".
Proof. repeat split; reflexivity. Qed.

(** ** Dependence on the arguments *)

(** C9: two runs, on the same [sys.stdout], whose [sys.argv] agree at index
    1 print the same and end with the same status, whatever the script name
    and the further arguments are. *)
Theorem first_argument_only (codec : text_codec) (argv1 argv2 : list str) :
  nth_error argv1 1 = nth_error argv2 1 ->
  run_script codec argv1 = run_script codec argv2.
Proof. intros H. now rewrite !run_script_cases, H. Qed.

Lemma first_argument_only_witness :
  nth_error [str_of "kw.py"; str_of "select"] 1 =
    nth_error [str_of "./kw.py"; str_of "select"; str_of "from"; []] 1 /\
  run_script codec_utf_8 [str_of "kw.py"; str_of "select"] =
    run_script codec_utf_8
               [str_of "./kw.py"; str_of "select"; str_of "from"; []].
Proof.
  split; [reflexivity|].
  apply (first_argument_only codec_utf_8
           [str_of "kw.py"; str_of "select"]
           [str_of "./kw.py"; str_of "select"; str_of "from"; []] eq_refl).
Defined.

(** ** Balance of the brackets *)

(** C10, as stated, fails: the keyword "[" has length 1 and its pattern is
    "[[[]", with three opening brackets and no alternation. *)
Lemma brackets_of_bracket_keyword :
  keyword_pattern (str_of "[") = str_of "[[[]" /\
  count_char lbracket (keyword_pattern (str_of "[")) <>
    List.length (str_of "[") /\
  brackets_alternate (keyword_pattern (str_of "[")) = false.
Proof. repeat split; vm_compute; discriminate. Qed.

(** C10, amended: for every keyword of length n that contains neither "["
    nor "]", the pattern contains exactly n opening and n closing brackets,
    and they alternate, every group being closed before the next one opens,
    also when a case mapping is longer than one character. *)
Theorem brackets_balanced (kw : str) :
  has_bracket kw = false ->
  count_char lbracket (keyword_pattern kw) = List.length kw /\
  count_char rbracket (keyword_pattern kw) = List.length kw /\
  brackets_alternate (keyword_pattern kw) = true.
Proof.
  unfold brackets_alternate.
  induction kw as [|ch kw IH]; [now repeat split|].
  unfold has_bracket. cbn [existsb]. intros H.
  apply orb_false_elim in H as [Hch Hkw].
  destruct (IH Hkw) as (IHl & IHr & IHs).
  destruct (bracket_group_counts _ Hch) as [Hl Hr].
  rewrite keyword_pattern_cons, !count_char_app, Hl, Hr, IHl, IHr.
  rewrite (bracket_group_scan _ _ Hch).
  repeat split; assumption.
Qed.

Lemma brackets_balanced_witness :
  has_bracket [0x61; 0xDF; 0x130] = false /\
  keyword_pattern [0x61; 0xDF; 0x130] =
    str_of "[aA][" ++ [0xDF] ++ str_of "SS][i" ++ [0x307; 0x130] ++ str_of "]" /\
  count_char lbracket (keyword_pattern [0x61; 0xDF; 0x130]) = 3%nat /\
  count_char rbracket (keyword_pattern [0x61; 0xDF; 0x130]) = 3%nat /\
  brackets_alternate (keyword_pattern [0x61; 0xDF; 0x130]) = true.
Proof.
  split; [reflexivity|]. split; [reflexivity|].
  apply (brackets_balanced [0x61; 0xDF; 0x130] eq_refl).
Defined.

(** ** Further properties of the loop *)

(** The parts appended by the loop: [ret] holds exactly four strings per
    character of the keyword (whatever the lengths of the case mappings),
    and for the character at index i they are, at indices 4i to 4i+3, the
    opening bracket, its lower case, its upper case, the closing bracket. *)
Theorem ret_parts (kw : str) :
  List.length (ret_after_loop kw) = (4 * List.length kw)%nat /\
  forall (i : nat) (ch : char),
    nth_error kw i = Some ch ->
    nth_error (ret_after_loop kw) (4 * i) = Some [lbracket] /\
    nth_error (ret_after_loop kw) (4 * i + 1) = Some (str_lower [ch]) /\
    nth_error (ret_after_loop kw) (4 * i + 2) = Some (str_upper [ch]) /\
    nth_error (ret_after_loop kw) (4 * i + 3) = Some [rbracket].
Proof.
  unfold ret_after_loop. rewrite fold_left_main_loop_body. cbn [app].
  split.
  - induction kw as [|c kw IH]; [reflexivity|].
    cbn [flat_map List.length app]. rewrite IH. lia.
  - induction kw as [|c kw IH]; intros i ch H.
    + destruct i; discriminate.
    + destruct i as [|i].
      * injection H as ->. repeat split; reflexivity.
      * cbn [nth_error] in H. specialize (IH i ch H).
        replace (4 * S i)%nat with (S (S (S (S (4 * i))))) by lia.
        cbn [flat_map app Nat.add nth_error]. exact IH.
Qed.

Lemma ret_parts_witness :
  nth_error [0x61; 0xDF] 1 = Some 0xDF /\
  nth_error (ret_after_loop [0x61; 0xDF]) (4 * 1 + 2) = Some (str_of "SS").
Proof.
  split; [reflexivity|].
  apply (proj2 (ret_parts [0x61; 0xDF]) 1%nat 0xDF eq_refl).
Defined.

(** The pattern of two keywords written one after the other is the pattern
    of the first followed by the pattern of the second. *)
Theorem pattern_app (kw1 kw2 : str) :
  keyword_pattern (kw1 ++ kw2) = keyword_pattern kw1 ++ keyword_pattern kw2.
Proof. rewrite !keyword_pattern_flat_map. apply flat_map_app. Qed.

(** A keyword that is not empty gives a pattern that opens with a bracket
    and closes with one; in particular the pattern is not empty. *)
Theorem pattern_endpoints (kw : str) :
  kw <> [] ->
  exists middle, keyword_pattern kw = lbracket :: middle ++ [rbracket].
Proof.
  intros H. rewrite keyword_pattern_flat_map.
  destruct kw as [|c kw']; [contradiction|]. clear H.
  destruct kw' as [|d kw''].
  - exists (group_content c). cbn [flat_map]. rewrite app_nil_r.
    unfold bracket_group, group_content. cbn [app].
    now rewrite <- app_assoc.
  - assert (Hne : d :: kw'' <> []) by discriminate.
    destruct (exists_last Hne) as (kw3 & e & ->).
    exists (group_content c ++ [rbracket] ++ flat_map bracket_group kw3 ++
            [lbracket] ++ group_content e).
    cbn [flat_map]. rewrite flat_map_app. cbn [flat_map].
    rewrite app_nil_r. unfold bracket_group, group_content.
    rewrite <- ?app_assoc. cbn [app]. reflexivity.
Qed.

Lemma pattern_endpoints_witness :
  [0xDF] <> ([] : str) /\
  exists middle, keyword_pattern [0xDF] = lbracket :: middle ++ [rbracket].
Proof.
  split; [discriminate|].
  apply (pattern_endpoints [0xDF]). discriminate.
Defined.

(** ** Bounds on the length of the pattern *)

(** Case mappings are one to three characters long, and the two mappings of
    one character are at most four characters together. *)
Lemma tables_mapping_lengths :
  forallb (fun p => (1 <=? List.length (snd p))%nat &&
                    (1 <=? List.length (str_upper [fst p]))%nat &&
                    (List.length (snd p) +
                     List.length (str_upper [fst p]) <=? 4)%nat)
          lower_table = true /\
  forallb (fun p => (1 <=? List.length (snd p))%nat &&
                    (List.length (snd p) <=? 3)%nat)
          upper_table = true.
Proof. split; vm_compute; reflexivity. Qed.

Lemma group_content_length (ch : char) :
  (2 <= List.length (group_content ch) <= 4)%nat.
Proof.
  unfold group_content. rewrite length_app.
  destruct tables_mapping_lengths as [Hl Hu].
  destruct (assoc ch lower_table) as [m|] eqn:El.
  - pose proof (table_forall _ _ _ _ Hl El) as H. cbn [fst snd] in H.
    apply andb_prop in H as [H H3]. apply andb_prop in H as [H1 H2].
    apply Nat.leb_le in H1, H2, H3.
    rewrite str_lower_char. unfold PyUnicode_ToLowerFull. rewrite El.
    lia.
  - rewrite (lower_unmapped _ El). cbn [List.length].
    destruct (assoc ch upper_table) as [m|] eqn:Eu.
    + pose proof (table_forall _ _ _ _ Hu Eu) as H. cbn [fst snd] in H.
      apply andb_prop in H as [H1 H2]. apply Nat.leb_le in H1, H2.
      rewrite str_upper_char. unfold PyUnicode_ToUpperFull. rewrite Eu.
      lia.
    + rewrite (upper_unmapped _ Eu). cbn [List.length]. lia.
Qed.

Lemma bracket_group_content (ch : char) :
  bracket_group ch = lbracket :: group_content ch ++ [rbracket].
Proof.
  unfold bracket_group, group_content. cbn [app]. now rewrite <- app_assoc.
Qed.

(** For every keyword of length n the pattern has at least 4n and at most
    6n characters. *)
Theorem pattern_length_bounds (kw : str) :
  (4 * List.length kw <= List.length (keyword_pattern kw) <=
   6 * List.length kw)%nat.
Proof.
  induction kw as [|ch kw IH]; [cbn; lia|].
  rewrite keyword_pattern_cons, length_app, bracket_group_content.
  pose proof (group_content_length ch) as H.
  cbn [List.length]. rewrite length_app. cbn [List.length]. lia.
Qed.

(** Both bounds are met: by "a", and by U+0390, whose upper case is three
    characters long. *)
Example pattern_length_bounds_met :
  List.length (keyword_pattern (str_of "a")) = 4%nat /\
  List.length (keyword_pattern [0x390]) = 6%nat.
Proof. split; reflexivity. Qed.

(** ** Newlines in the pattern *)

Lemma tables_newline_free :
  forallb (fun p => negb (existsb (Z.eqb newline) (snd p))) lower_table = true
  /\
  forallb (fun p => negb (existsb (Z.eqb newline) (snd p))) upper_table = true.
Proof. split; vm_compute; reflexivity. Qed.

Lemma count_char_absent (c : char) (s : str) :
  existsb (Z.eqb c) s = false -> count_char c s = 0%nat.
Proof.
  unfold count_char. induction s as [|x s IH]; [reflexivity|].
  cbn [existsb count_occ]. intros H. apply orb_false_elim in H as [Hx Hs].
  apply Z.eqb_neq in Hx. destruct (Z.eq_dec x c); [congruence|auto].
Qed.

Lemma group_content_newlines (ch : char) :
  count_char newline (group_content ch) =
  if ch =? newline then 2%nat else 0%nat.
Proof.
  destruct (Z.eqb_spec ch newline) as [->|Hne]; [reflexivity|].
  destruct tables_newline_free as [Hl Hu].
  unfold group_content. rewrite count_char_app.
  assert (El : count_char newline (str_lower [ch]) = 0%nat).
  { apply count_char_absent.
    destruct (assoc ch lower_table) as [m|] eqn:E.
    - rewrite str_lower_char. unfold PyUnicode_ToLowerFull. rewrite E.
      pose proof (table_forall _ _ _ _ Hl E) as H.
      now apply negb_true_iff in H.
    - rewrite (lower_unmapped _ E). cbn [existsb].
      apply orb_false_intro; [|reflexivity]. apply Z.eqb_neq. congruence. }
  assert (Eu : count_char newline (str_upper [ch]) = 0%nat).
  { apply count_char_absent.
    destruct (assoc ch upper_table) as [m|] eqn:E.
    - rewrite str_upper_char. unfold PyUnicode_ToUpperFull. rewrite E.
      pose proof (table_forall _ _ _ _ Hu E) as H.
      now apply negb_true_iff in H.
    - rewrite (upper_unmapped _ E). cbn [existsb].
      apply orb_false_intro; [|reflexivity]. apply Z.eqb_neq. congruence. }
  now rewrite El, Eu.
Qed.

Lemma count_char_cons (c x : char) (s : str) :
  count_char c (x :: s) =
  ((if (x =? c)%Z then 1 else 0) + count_char c s)%nat.
Proof.
  unfold count_char. cbn [count_occ].
  destruct (Z.eq_dec x c) as [->|Hne].
  - now rewrite Z.eqb_refl.
  - apply Z.eqb_neq in Hne. now rewrite Hne.
Qed.

(** The pattern handed to [print] holds exactly two newlines for every
    newline of the keyword: the pattern of a keyword without a newline is a
    single line. *)
Theorem pattern_newlines (kw : str) :
  count_char newline (keyword_pattern kw) = (2 * count_char newline kw)%nat.
Proof.
  induction kw as [|ch kw IH]; [reflexivity|].
  rewrite keyword_pattern_cons, count_char_app, IH, bracket_group_content.
  rewrite !count_char_cons, count_char_app, group_content_newlines.
  rewrite !count_char_cons.
  change (lbracket =? newline) with false.
  change (rbracket =? newline) with false.
  change (count_char newline []) with 0%nat.
  destruct (ch =? newline); lia.
Qed.

(** ** [str.lower] and [str.upper], one character at a time *)

Lemma map_nth_seq_from (pre data : str) (d : char) :
  map (fun i => nth i (pre ++ data) d)
      (seq (List.length pre) (List.length data)) = data.
Proof.
  revert pre; induction data as [|x data IH]; intros pre; [reflexivity|].
  cbn [List.length seq map]. rewrite nth_middle. f_equal.
  specialize (IH (pre ++ [x])). rewrite <- app_assoc, length_app in IH.
  cbn [app List.length] in IH. rewrite Nat.add_1_r in IH. exact IH.
Qed.

(** Without a capital sigma in the string no character is lowered by its
    context: the whole string is lowered as its characters are. *)
Lemma str_lower_per_char (s : str) :
  existsb (Z.eqb capital_sigma) s = false ->
  str_lower s = flat_map (fun c => str_lower [c]) s.
Proof.
  intros H. unfold str_lower at 1, do_lower.
  rewrite flat_map_concat_map.
  rewrite (map_ext_in _ (fun i => str_lower [nth i s 0])).
  - rewrite <- (map_map (fun i => nth i s 0) (fun c => str_lower [c])).
    pose proof (map_nth_seq_from [] s 0) as Hs. cbn [app List.length] in Hs.
    rewrite Hs. symmetry. apply flat_map_concat_map.
  - intros i Hi. apply in_seq in Hi.
    assert (Hin : In (nth i s 0) s) by (apply nth_In; lia).
    unfold lower_ucs4.
    destruct (Z.eqb_spec (nth i s 0) capital_sigma) as [E|_].
    + exfalso. rewrite E in Hin.
      assert (existsb (Z.eqb capital_sigma) s = true).
      { apply existsb_exists. exists capital_sigma. split; [exact Hin|].
        apply Z.eqb_refl. }
      congruence.
    + symmetry. apply str_lower_char.
Qed.

Lemma str_upper_per_char (s : str) :
  str_upper s = flat_map (fun c => str_upper [c]) s.
Proof.
  unfold str_upper at 1, do_upper. apply flat_map_ext.
  intros c. symmetry. apply str_upper_char.
Qed.

(** ** Keywords of ASCII characters *)

Lemma ascii_chars_complete (c : char) : is_ascii c = true -> In c ascii_chars.
Proof.
  unfold is_ascii, ascii_chars. intros H. apply andb_prop in H as [H0 H1].
  apply Z.leb_le in H0, H1. apply in_map_iff.
  exists (Z.to_nat c). split; [lia|]. apply in_seq. lia.
Qed.

(** Checked character by character: the group of an ASCII character is
    ASCII, and its lower and upper case forms have the same group as it. *)
Lemma ascii_chars_checked :
  forallb (fun c => forallb is_ascii (bracket_group c) &&
                    forallb is_ascii (str_lower [c]) &&
                    forallb is_ascii (str_upper [c]) &&
                    str_eqb (flat_map bracket_group (str_lower [c]))
                            (bracket_group c) &&
                    str_eqb (flat_map bracket_group (str_upper [c]))
                            (bracket_group c))
          ascii_chars = true.
Proof. vm_compute. reflexivity. Qed.

Lemma ascii_char_facts (c : char) :
  is_ascii c = true ->
  forallb is_ascii (bracket_group c) = true /\
  forallb is_ascii (str_lower [c]) = true /\
  forallb is_ascii (str_upper [c]) = true /\
  flat_map bracket_group (str_lower [c]) = bracket_group c /\
  flat_map bracket_group (str_upper [c]) = bracket_group c.
Proof.
  intros H. apply ascii_chars_complete in H.
  pose proof ascii_chars_checked as Hall. rewrite forallb_forall in Hall.
  specialize (Hall c H).
  repeat (apply andb_prop in Hall as [Hall ?]).
  repeat split; auto using str_eqb_eq.
Qed.

Lemma ascii_no_capital_sigma (s : str) :
  forallb is_ascii s = true -> existsb (Z.eqb capital_sigma) s = false.
Proof.
  induction s as [|c s IH]; [reflexivity|].
  cbn [forallb existsb]. intros H. apply andb_prop in H as [Hc Hs].
  rewrite (IH Hs), orb_false_r. apply Z.eqb_neq.
  unfold is_ascii in Hc. apply andb_prop in Hc as [_ Hc].
  apply Z.leb_le in Hc. unfold capital_sigma. lia.
Qed.

Lemma pattern_of_lower_ascii (kw : str) :
  forallb is_ascii kw = true ->
  keyword_pattern (str_lower kw) = keyword_pattern kw.
Proof.
  intros H. rewrite (str_lower_per_char _ (ascii_no_capital_sigma _ H)).
  rewrite !keyword_pattern_flat_map.
  induction kw as [|c kw IH]; [reflexivity|].
  cbn [forallb] in H. apply andb_prop in H as [Hc Hkw].
  cbn [flat_map]. rewrite flat_map_app, (IH Hkw).
  destruct (ascii_char_facts _ Hc) as (_ & _ & _ & -> & _). reflexivity.
Qed.

Lemma pattern_of_upper_ascii (kw : str) :
  forallb is_ascii kw = true ->
  keyword_pattern (str_upper kw) = keyword_pattern kw.
Proof.
  intros H. rewrite str_upper_per_char, !keyword_pattern_flat_map.
  induction kw as [|c kw IH]; [reflexivity|].
  cbn [forallb] in H. apply andb_prop in H as [Hc Hkw].
  cbn [flat_map]. rewrite flat_map_app, (IH Hkw).
  destruct (ascii_char_facts _ Hc) as (_ & _ & _ & _ & ->). reflexivity.
Qed.

Lemma str_lower_ascii_cons (c : char) (kw : str) :
  forallb is_ascii (c :: kw) = true ->
  str_lower (c :: kw) = str_lower [c] ++ str_lower kw.
Proof.
  intros H. pose proof H as H'. cbn [forallb] in H'.
  apply andb_prop in H' as [_ Hkw].
  rewrite (str_lower_per_char _ (ascii_no_capital_sigma _ H)).
  now rewrite (str_lower_per_char _ (ascii_no_capital_sigma _ Hkw)).
Qed.

Lemma ascii_group_shape (c : char) :
  is_ascii c = true ->
  exists l u, str_lower [c] = [l] /\ str_upper [c] = [u] /\
              bracket_group c = [lbracket; l; u; rbracket].
Proof.
  intros H. apply bracket_group_simple, ascii_simple_case.
  unfold is_ascii in H. apply andb_prop in H as [_ H].
  now apply Z.leb_le in H.
Qed.

(** The pattern does not depend on the case of an ASCII keyword: the
    keyword, its lower case and its upper case have the same pattern. *)
Theorem ascii_case_insensitive (kw : str) :
  forallb is_ascii kw = true ->
  keyword_pattern (str_lower kw) = keyword_pattern kw /\
  keyword_pattern (str_upper kw) = keyword_pattern kw.
Proof.
  intros H. split;
    [now apply pattern_of_lower_ascii|now apply pattern_of_upper_ascii].
Qed.

Lemma ascii_case_insensitive_witness :
  forallb is_ascii (str_of "Select_1") = true /\
  keyword_pattern (str_of "select_1") = keyword_pattern (str_of "Select_1") /\
  keyword_pattern (str_of "SELECT_1") = keyword_pattern (str_of "Select_1").
Proof.
  split; [reflexivity|].
  apply (ascii_case_insensitive (str_of "Select_1") eq_refl).
Defined.

(** Two ASCII keywords have the same pattern exactly when they are equal up
    to case, that is, when their lower case forms are equal. *)
Theorem ascii_same_pattern (a b : str) :
  forallb is_ascii a = true -> forallb is_ascii b = true ->
  (keyword_pattern a = keyword_pattern b <-> str_lower a = str_lower b).
Proof.
  intros Ha Hb. split.
  - revert b Hb. induction a as [|c a IH]; intros [|d b] Hb E.
    + reflexivity.
    + rewrite keyword_pattern_cons, bracket_group_content in E. discriminate.
    + rewrite keyword_pattern_cons, bracket_group_content in E. discriminate.
    + rewrite (str_lower_ascii_cons _ _ Ha), (str_lower_ascii_cons _ _ Hb).
      cbn [forallb] in Ha, Hb.
      apply andb_prop in Ha as [Hc Ha]. apply andb_prop in Hb as [Hd Hb].
      rewrite !keyword_pattern_cons in E.
      destruct (ascii_group_shape _ Hc) as (l & u & -> & _ & Gc).
      destruct (ascii_group_shape _ Hd) as (l' & u' & -> & _ & Gd).
      rewrite Gc, Gd in E. injection E as -> _ E.
      now rewrite (IH Ha b Hb E).
  - intros E. rewrite <- (pattern_of_lower_ascii _ Ha), E.
    now apply pattern_of_lower_ascii.
Qed.

Lemma ascii_same_pattern_witness :
  forallb is_ascii (str_of "From") = true /\
  forallb is_ascii (str_of "fROM") = true /\
  (keyword_pattern (str_of "From") = keyword_pattern (str_of "fROM") <->
   str_lower (str_of "From") = str_lower (str_of "fROM")).
Proof.
  split; [reflexivity|]. split; [reflexivity|].
  apply (ascii_same_pattern (str_of "From") (str_of "fROM") eq_refl eq_refl).
Defined.

(** The pattern of an ASCII keyword is made of ASCII characters. *)
Theorem pattern_ascii (kw : str) :
  forallb is_ascii kw = true -> forallb is_ascii (keyword_pattern kw) = true.
Proof.
  induction kw as [|c kw IH]; [reflexivity|].
  cbn [forallb]. intros H. apply andb_prop in H as [Hc Hkw].
  rewrite keyword_pattern_cons, forallb_app, (IH Hkw).
  destruct (ascii_char_facts _ Hc) as (-> & _). reflexivity.
Qed.

Lemma pattern_ascii_witness :
  forallb is_ascii (str_of "kW~") = true /\
  forallb is_ascii (keyword_pattern (str_of "kW~")) = true.
Proof.
  split; [reflexivity|]. apply (pattern_ascii (str_of "kW~") eq_refl).
Defined.

(** ** Keywords with the same pattern *)

Lemma split_at_closing (x y r r' : str) :
  has_bracket x = false -> has_bracket y = false ->
  x ++ rbracket :: r = y ++ rbracket :: r' -> x = y /\ r = r'.
Proof.
  revert y; induction x as [|a x IH]; intros [|b y]; cbn [app has_bracket
    existsb]; intros Hx Hy E.
  - injection E as ->. now split.
  - injection E as <- _. discriminate.
  - injection E as -> _. discriminate.
  - injection E as -> E.
    apply orb_false_elim in Hx as [_ Hx]. apply orb_false_elim in Hy as [_ Hy].
    destruct (IH y Hx Hy E) as [-> ->]. now split.
Qed.

Lemma pattern_cons_content (ch : char) (kw : str) :
  keyword_pattern (ch :: kw) =
  lbracket :: group_content ch ++ rbracket :: keyword_pattern kw.
Proof.
  rewrite keyword_pattern_cons, bracket_group_content.
  cbn [app]. now rewrite <- app_assoc.
Qed.

(** The lower case of a character is one character, but for U+0130, and no
    upper case is the two characters U+0307 U+0130: what is between the
    brackets of a group splits in one way only. *)
Lemma tables_content_split :
  forallb (fun p => (List.length (snd p) =? 1)%nat || (fst p =? 0x130))
          lower_table = true /\
  forallb (fun p => negb (str_eqb (snd p) [0x307; 0x130]))
          upper_table = true.
Proof. split; vm_compute; reflexivity. Qed.

Lemma lower_one_char_or_I_dot (c : char) :
  (exists l, str_lower [c] = [l]) \/ c = 0x130.
Proof.
  destruct (assoc c lower_table) as [m|] eqn:E.
  - pose proof (table_forall _ _ _ _ (proj1 tables_content_split) E) as H.
    cbn [fst snd] in H. apply orb_prop in H as [H|H].
    + left. rewrite str_lower_char. unfold PyUnicode_ToLowerFull. rewrite E.
      apply Nat.eqb_eq in H. destruct m as [|l [|? ?]]; try discriminate.
      now exists l.
    + right. now apply Z.eqb_eq in H.
  - left. exists c. now apply lower_unmapped.
Qed.

Lemma upper_not_dot_I (c : char) : str_upper [c] <> [0x307; 0x130].
Proof.
  intros H. destruct (assoc c upper_table) as [m|] eqn:E.
  - pose proof (table_forall _ _ _ _ (proj2 tables_content_split) E) as Hm.
    cbn [snd] in Hm. rewrite str_upper_char in H.
    unfold PyUnicode_ToUpperFull in H. rewrite E in H. subst m.
    discriminate.
  - rewrite (upper_unmapped _ E) in H. discriminate.
Qed.

Lemma group_content_split (c d : char) :
  group_content c = group_content d ->
  str_lower [c] = str_lower [d] /\ str_upper [c] = str_upper [d].
Proof.
  unfold group_content. intros E.
  destruct (lower_one_char_or_I_dot c) as [[l Hl]| ->];
    destruct (lower_one_char_or_I_dot d) as [[l' Hl']| ->].
  - rewrite Hl, Hl' in *. injection E as -> E. now split.
  - rewrite Hl in E. exfalso. apply (upper_not_dot_I c).
    change (str_lower [0x130]) with [0x69; 0x307] in E.
    change (str_upper [0x130]) with [0x130] in E.
    cbn [app] in E. now injection E as _ E.
  - rewrite Hl' in E. exfalso. apply (upper_not_dot_I d).
    change (str_lower [0x130]) with [0x69; 0x307] in E.
    change (str_upper [0x130]) with [0x130] in E.
    cbn [app] in E. now injection E as _ E.
  - now split.
Qed.

(** Two keywords without brackets have the same pattern exactly when they
    have the same length and, position by position, characters with the
    same lower case and the same upper case. *)
Theorem same_pattern_bracket_free (a b : str) :
  has_bracket a = false -> has_bracket b = false ->
  (keyword_pattern a = keyword_pattern b <->
   Forall2 (fun c d => str_lower [c] = str_lower [d] /\
                       str_upper [c] = str_upper [d]) a b).
Proof.
  intros Ha Hb. split.
  - revert b Hb. induction a as [|c a IH]; intros [|d b] Hb E.
    + constructor.
    + rewrite pattern_cons_content in E. discriminate.
    + rewrite pattern_cons_content in E. discriminate.
    + rewrite !pattern_cons_content in E. injection E as E.
      unfold has_bracket in Ha, Hb. cbn [existsb] in Ha, Hb.
      apply orb_false_elim in Ha as [Hc Ha].
      apply orb_false_elim in Hb as [Hd Hb].
      destruct (split_at_closing _ _ _ _
                  (group_inner_bracket_free _ Hc)
                  (group_inner_bracket_free _ Hd) E) as [Ec Er].
      constructor; [now apply group_content_split|now apply IH].
  - clear Ha Hb. induction 1 as [|c d a b [El Eu] _ IH]; [reflexivity|].
    rewrite !keyword_pattern_cons, IH. unfold bracket_group.
    now rewrite El, Eu.
Qed.

Lemma same_pattern_bracket_free_witness :
  has_bracket [0xE9; 0x31] = false /\ has_bracket [0xC9; 0x31] = false /\
  keyword_pattern [0xE9; 0x31] = keyword_pattern [0xC9; 0x31].
Proof.
  split; [reflexivity|]. split; [reflexivity|].
  apply (proj2 (same_pattern_bracket_free [0xE9; 0x31] [0xC9; 0x31]
                  eq_refl eq_refl)).
  repeat constructor.
Defined.

(** ** The case forms spelled by the parts *)

Lemma ret_after_loop_entries (kw : str) (i : nat) (ch : char) :
  nth_error kw i = Some ch ->
  nth_error (ret_after_loop kw) (4 * i + 1) = Some (str_lower [ch]) /\
  nth_error (ret_after_loop kw) (4 * i + 2) = Some (str_upper [ch]).
Proof.
  unfold ret_after_loop. rewrite fold_left_main_loop_body. cbn [app].
  revert i. induction kw as [|c kw IH]; intros i H.
  - destruct i; discriminate.
  - destruct i as [|i].
    + injection H as ->. split; reflexivity.
    + cbn [nth_error] in H. specialize (IH i H).
      replace (4 * S i)%nat with (S (S (S (S (4 * i))))) by lia.
      cbn [flat_map app Nat.add nth_error]. exact IH.
Qed.

Lemma ret_column_lower_upper (kw : str) :
  ret_column 1 kw = map (fun ch => str_lower [ch]) kw /\
  ret_column 2 kw = map (fun ch => str_upper [ch]) kw.
Proof.
  pose proof (map_nth_seq_from [] kw 0) as Hs. cbn [app List.length] in Hs.
  unfold ret_column. split.
  - transitivity (map (fun ch => str_lower [ch])
                       (map (fun i => nth i kw 0) (seq 0 (List.length kw))));
      [|now rewrite Hs].
    rewrite map_map. apply map_ext_in.
    intros i Hi. apply in_seq in Hi.
    assert (Hn : nth_error kw i = Some (nth i kw 0))
      by (apply nth_error_nth'; lia).
    destruct (ret_after_loop_entries _ _ _ Hn) as [Hl _].
    now apply nth_error_nth.
  - transitivity (map (fun ch => str_upper [ch])
                       (map (fun i => nth i kw 0) (seq 0 (List.length kw))));
      [|now rewrite Hs].
    rewrite map_map. apply map_ext_in.
    intros i Hi. apply in_seq in Hi.
    assert (Hn : nth_error kw i = Some (nth i kw 0))
      by (apply nth_error_nth'; lia).
    destruct (ret_after_loop_entries _ _ _ Hn) as [_ Hu].
    now apply nth_error_nth.
Qed.

(** The upper case parts the loop has appended to [ret] (its entries 4i+2)
    spell, joined in order, the upper case of the whole keyword; the lower
    case parts (its entries 4i+1) spell its lower case when the keyword has
    no capital sigma (U+03A3), the one character [str.lower] maps by
    context. *)
Theorem ret_columns_spell_case_forms (kw : str) :
  str_join_empty (ret_column 2 kw) = str_upper kw /\
  (existsb (Z.eqb capital_sigma) kw = false ->
   str_join_empty (ret_column 1 kw) = str_lower kw).
Proof.
  destruct (ret_column_lower_upper kw) as [Hl Hu].
  unfold str_join_empty. rewrite Hl, Hu, <- !flat_map_concat_map. split.
  - symmetry. apply str_upper_per_char.
  - intros H. symmetry. now apply str_lower_per_char.
Qed.

Lemma ret_columns_spell_case_forms_witness :
  existsb (Z.eqb capital_sigma) [0x130; 0xDF; 0x41] = false /\
  str_join_empty (ret_column 1 [0x130; 0xDF; 0x41]) =
  str_lower [0x130; 0xDF; 0x41].
Proof.
  split; [reflexivity|].
  apply (proj2 (ret_columns_spell_case_forms [0x130; 0xDF; 0x41]) eq_refl).
Defined.

(** With a capital sigma at the end of a word the two differ: the loop
    gives the small sigma, [str.lower] of the keyword the final one. *)
Example final_sigma_not_in_parts :
  str_join_empty (ret_column 1 [0x391; 0x3A3]) = [0x3B1; 0x3C3] /\
  str_lower [0x391; 0x3A3] = [0x3B1; 0x3C2].
Proof. split; reflexivity. Qed.
